(** * Cart-to-order transition and stock reconciliation of the wallpaper store

    A shallow embedding of [store/models.py] and of the stock-affecting views
    of [store/views.py] ([add_to_cart], [remove_from_cart], [update_cart_item],
    [checkout], [cancel_order], [admin_order_detail], [admin_order_delete]),
    followed by the properties of the order engine.

    No view opens a transaction and every early exit of a view is an ordinary
    [return], so each [save()], [create()] and [delete()] that was reached
    stays in the database.  A view is therefore a function from the database
    to its answer and the database it leaves behind, also when it stops
    early.

    Integers are Python integers ([Z]).  The check constraint that the
    database puts on a [PositiveIntegerField] is not part of the model: the
    properties below are about what the code itself writes.  No view checks
    a value against the width of its column: the [max_digits] of
    [Order.total_price] appears as [fits_total_price] where a property
    depends on an order being read back right after it was made.  Flash
    messages of the success paths, time stamps, images and categories play no
    role in the engine and are left out. *)

From stdpp Require Import gmap strings list fin_maps.
From Stdlib Require Import ZArith Lia.

Open Scope Z_scope.

(** ** models.py *)

(** [class User(AbstractUser)]: the fields the views read or write.  Users are
    keyed by primary key in [users]. *)
Module User.
Record t := mk {
  role : string;
  is_superuser : bool;
  first_name : string;
  last_name : string;
  email : string;
  phone : string;
  address : string;
  city : string;
  postal_code : string;
  country : string
}.

(** [", ".join(parts)] *)
Fixpoint join (sep : string) (parts : list string) : string :=
  match parts with
  | [] => EmptyString
  | [p] => p
  | p :: rest => p +:+ sep +:+ join sep rest
  end.

(** [if s: parts.append(s)] *)
Definition part (s : string) : list string :=
  if decide (s = EmptyString) then [] else [s].

(** [User.get_full_address] *)
Definition get_full_address (self : t) : string :=
  let parts :=
    part (postal_code self) ++ part (country self) ++
    (if decide (city self = EmptyString) then [] else ["г. " +:+ city self]) ++
    part (address self) in
  match parts with
  | [] => "Адрес не указан"
  | _ => join ", " parts
  end.
End User.

(** [class Product]: [price] is a [DecimalField] with two decimal places and
  is counted here in hundredths of the currency unit; [stock] is the Python
  integer held by the [PositiveIntegerField]. *)
Module Product.
Record t := mk {
  name : string;
  price : Z;
  stock : Z
}.

Definition with_stock (n : Z) (self : t) : t :=
  mk (name self) (price self) n.
End Product.

(** [class CartItem]: [product] is the foreign key (a product id); the owning
  cart is the list the item is stored in. *)
Module CartItem.
Record t := mk {
  id : Z;
  product : Z;
  quantity : Z
}.

Definition with_quantity (q : Z) (self : t) : t :=
  mk (id self) (product self) q.
End CartItem.

(** [class OrderItem]: [price] is the snapshot taken when the order is made. *)
Module OrderItem.
Record t := mk {
  product : Z;
  quantity : Z;
  price : Z
}.

(** [OrderItem.total_price] *)
Definition total_price (self : t) : Z := price self * quantity self.
End OrderItem.

(** [class Order]: [items] is the reverse relation [order.items.all()], in
  creation order. *)
Module Order.
Record t := mk {
  user : Z;
  status : string;
  delivery_method : string;
  payment_method : string;
  total_price : Z;
  shipping_address : string;
  shipping_city : string;
  shipping_zip_code : string;
  admin_notes : string;
  assigned_to : option Z;
  priority : string;
  items : list OrderItem.t
}.

Definition with_status (s : string) (self : t) : t :=
  mk (user self) s (delivery_method self) (payment_method self)
     (total_price self) (shipping_address self) (shipping_city self)
     (shipping_zip_code self) (admin_notes self) (assigned_to self)
     (priority self) (items self).

Definition with_admin_notes (s : string) (self : t) : t :=
  mk (user self) (status self) (delivery_method self) (payment_method self)
     (total_price self) (shipping_address self) (shipping_city self)
     (shipping_zip_code self) s (assigned_to self)
     (priority self) (items self).

Definition with_assigned_to (a : option Z) (self : t) : t :=
  mk (user self) (status self) (delivery_method self) (payment_method self)
     (total_price self) (shipping_address self) (shipping_city self)
     (shipping_zip_code self) (admin_notes self) a
     (priority self) (items self).

Definition with_priority (s : string) (self : t) : t :=
  mk (user self) (status self) (delivery_method self) (payment_method self)
     (total_price self) (shipping_address self) (shipping_city self)
     (shipping_zip_code self) (admin_notes self) (assigned_to self)
     s (items self).

Definition with_items (l : list OrderItem.t) (self : t) : t :=
  mk (user self) (status self) (delivery_method self) (payment_method self)
     (total_price self) (shipping_address self) (shipping_city self)
     (shipping_zip_code self) (admin_notes self) (assigned_to self)
     (priority self) l.
End Order.

(** ** The database *)

(** One table per model.  [class Cart] is one row per user
    ([OneToOneField]), so carts are keyed by their user and a cart is the list
    [cart.items.all()] of its lines, in creation order.  The two counters are
    the primary-key sequences of [CartItem] and [Order]. *)
Record DB := mkDB {
  users : gmap Z User.t;
  products : gmap Z Product.t;
  carts : gmap Z (list CartItem.t);
  orders : gmap Z Order.t;
  next_cart_item_id : Z;
  next_order_id : Z
}.

Definition set_users (f : gmap Z User.t → gmap Z User.t) (db : DB) : DB :=
  mkDB (f (users db)) (products db) (carts db) (orders db)
       (next_cart_item_id db) (next_order_id db).

Definition set_products (f : gmap Z Product.t → gmap Z Product.t) (db : DB) : DB :=
  mkDB (users db) (f (products db)) (carts db) (orders db)
       (next_cart_item_id db) (next_order_id db).

Definition set_carts (f : gmap Z (list CartItem.t) → gmap Z (list CartItem.t))
    (db : DB) : DB :=
  mkDB (users db) (products db) (f (carts db)) (orders db)
       (next_cart_item_id db) (next_order_id db).

Definition set_orders (f : gmap Z Order.t → gmap Z Order.t) (db : DB) : DB :=
  mkDB (users db) (products db) (carts db) (f (orders db))
       (next_cart_item_id db) (next_order_id db).

(** ** Outcomes of a view *)

(** A view that stops with [messages.error] / [messages.warning] and a
    redirect, or with an exception, ends in [Err]:
    - [NotFound]: [get_object_or_404] found no row;
    - [LoginRequired]: [login_required] / [user_passes_test] sent the caller
      to the login page;
    - [DoesNotExist]: a foreign key was followed to a missing row;
    - [OutOfStock name]: the message "<name> нет в наличии";
    - [InsufficientStock name]: the message "Недостаточно товара <name> на
      складе ...";
    - [EmptyCart]: the message "Ваша корзина пуста";
    - [InvalidTransition]: the message "Невозможно отменить заказ в текущем
      статусе". *)
Inductive Error :=
  | NotFound
  | LoginRequired
  | DoesNotExist
  | OutOfStock (name : string)
  | InsufficientStock (name : string)
  | EmptyCart
  | InvalidTransition.

(** What the view answers when it runs to its end. *)
Inductive Response :=
  | redirect (to : string) (arg : option Z)
  | render (template : string).

Inductive Result (A : Type) :=
  | Ok (a : A)
  | Err (e : Error).
Arguments Ok {A} a.
Arguments Err {A} e.

(** Code that reads and writes the database and may stop early; the database
    reached so far is kept in both cases. *)
Definition M (A : Type) : Type := DB → Result A * DB.

Definition fail {A} (e : Error) : M A := λ db, (Err e, db).
Definition get : M DB := λ db, (Ok db, db).
Definition modify (f : DB → DB) : M unit := λ db, (Ok tt, f db).

#[global] Instance M_ret : MRet M := λ A a db, (Ok a, db).
#[global] Instance M_bind : MBind M := λ A B k m db,
  match m db with
  | (Ok a, db') => k a db'
  | (Err e, db') => (Err e, db')
  end.

(** [for x in l: body(x)] *)
Fixpoint for_each {A} (l : list A) (body : A → M unit) : M unit :=
  match l with
  | [] => mret tt
  | x :: l' => body x;; for_each l' body
  end.

(** ** Database access used by the views *)

Definition or_fail {A} (e : Error) (o : option A) : M A :=
  match o with
  | Some a => mret a
  | None => fail e
  end.

(** [@login_required]: [request.user] must be a stored user. *)
Definition login_required (user : Z) : M User.t :=
  db ← get; or_fail LoginRequired (users db !! user).

(** [is_admin(user)] *)
Definition is_admin (u : User.t) : bool :=
  bool_decide (User.role u = "admin") || User.is_superuser u.

(** [@user_passes_test(test)] *)
Definition user_passes_test (test : User.t → bool) (user : Z) : M User.t :=
  u ← login_required user;
  if test u then mret u else fail LoginRequired.

(** [get_object_or_404(Product, id=product_id)] *)
Definition get_product_or_404 (product_id : Z) : M Product.t :=
  db ← get; or_fail NotFound (products db !! product_id).

(** [item.product]: the foreign key is followed when it is read. *)
Definition get_product (product_id : Z) : M Product.t :=
  db ← get; or_fail DoesNotExist (products db !! product_id).

(** [product.save()] *)
Definition save_product (product_id : Z) (p : Product.t) : M unit :=
  modify (set_products (insert product_id p)).

(** [cart.items.all()] for the cart of [user] *)
Definition cart_items (user : Z) : M (list CartItem.t) :=
  db ← get; mret (default [] (carts db !! user)).

(** [Cart.objects.get_or_create(user=request.user)] *)
Definition get_or_create_cart (user : Z) : M unit :=
  db ← get;
  match carts db !! user with
  | Some _ => mret tt
  | None => modify (set_carts (insert user []))
  end.

(** [get_object_or_404(Cart, user=request.user)] *)
Definition get_cart_or_404 (user : Z) : M unit :=
  db ← get;
  match carts db !! user with
  | Some _ => mret tt
  | None => fail NotFound
  end.

(** [CartItem.objects.get_or_create(cart=cart, product=product)]: a new line
    takes the next primary key and the default [quantity=1]. *)
Definition get_or_create_cart_item (user product_id : Z) : M (CartItem.t * bool) :=
  db ← get;
  let items := default [] (carts db !! user) in
  match find (λ ci, CartItem.product ci =? product_id) items with
  | Some ci => mret (ci, false)
  | None =>
      let ci := CartItem.mk (next_cart_item_id db) product_id 1 in
      modify (λ db, mkDB (users db) (products db)
                         (<[user := items ++ [ci]]> (carts db)) (orders db)
                         (next_cart_item_id db + 1) (next_order_id db));;
      mret (ci, true)
  end.

(** [get_object_or_404(CartItem, id=item_id, cart__user=request.user)] *)
Definition get_cart_item_or_404 (user item_id : Z) : M CartItem.t :=
  db ← get;
  or_fail NotFound
    (find (λ ci, CartItem.id ci =? item_id) (default [] (carts db !! user))).

(** [cart_item.save()] *)
Definition save_cart_item (user : Z) (item : CartItem.t) : M unit :=
  modify (set_carts (alter
    (map (λ ci, if CartItem.id ci =? CartItem.id item then item else ci)) user)).

(** [cart_item.delete()] *)
Definition delete_cart_item (user : Z) (item : CartItem.t) : M unit :=
  modify (set_carts (alter
    (filter (λ ci, CartItem.id ci ≠ CartItem.id item)) user)).

(** [get_object_or_404(Order, id=order_id)] *)
Definition get_order_or_404 (order_id : Z) : M Order.t :=
  db ← get; or_fail NotFound (orders db !! order_id).

(** [get_object_or_404(Order, id=order_id, user=request.user)] *)
Definition get_own_order_or_404 (order_id user : Z) : M Order.t :=
  order ← get_order_or_404 order_id;
  if decide (Order.user order = user) then mret order else fail NotFound.

(** [order.save()]: the row of the order is rewritten; its lines live in
    their own table and are not touched. *)
Definition save_order (order_id : Z) (order : Order.t) : M unit :=
  modify (set_orders (alter
    (λ stored, Order.with_items (Order.items stored) order) order_id)).

(** [Order.objects.create(...)]: the new row takes the next primary key. *)
Definition create_order (order : Order.t) : M Z :=
  db ← get;
  let order_id := next_order_id db in
  modify (λ db, mkDB (users db) (products db) (carts db)
                     (<[order_id := order]> (orders db))
                     (next_cart_item_id db) (next_order_id db + 1));;
  mret order_id.

(** [OrderItem.objects.create(order=order, ...)] *)
Definition create_order_item (order_id : Z) (item : OrderItem.t) : M unit :=
  modify (set_orders (alter
    (λ o, Order.with_items (Order.items o ++ [item]) o) order_id)).

(** ** views.py: the cart *)

(** [add_to_cart(request, product_id)] *)
Definition add_to_cart (user product_id : Z) : M Response :=
  login_required user;;
  product ← get_product_or_404 product_id;
  if decide (Product.stock product ≤ 0)
  then fail (OutOfStock (Product.name product))
  else
    get_or_create_cart user;;
    '(cart_item, created) ← get_or_create_cart_item user product_id;
    (if negb created
     then
       if decide (CartItem.quantity cart_item + 1 > Product.stock product)
       then fail (InsufficientStock (Product.name product))
       else save_cart_item user
              (CartItem.with_quantity (CartItem.quantity cart_item + 1) cart_item)
     else
       if decide (CartItem.quantity cart_item > Product.stock product)
       then delete_cart_item user cart_item;;
            fail (InsufficientStock (Product.name product))
       else mret tt);;
    mret (redirect "cart" None).

(** [remove_from_cart(request, item_id)] *)
Definition remove_from_cart (user item_id : Z) : M Response :=
  login_required user;;
  cart_item ← get_cart_item_or_404 user item_id;
  delete_cart_item user cart_item;;
  mret (redirect "cart" None).

(** [update_cart_item(request, item_id)]; [posted] is
    [request.POST.get('quantity')] read as an integer, [None] when the field
    is absent (the view then takes 1). *)
Definition update_cart_item (user item_id : Z) (posted : option Z) : M Response :=
  login_required user;;
  cart_item ← get_cart_item_or_404 user item_id;
  let quantity := default 1 posted in
  product ← get_product (CartItem.product cart_item);
  if decide (quantity > Product.stock product)
  then fail (InsufficientStock (Product.name product))
  else
    (if decide (quantity > 0)
     then save_cart_item user (CartItem.with_quantity quantity cart_item)
     else delete_cart_item user cart_item);;
    mret (redirect "cart" None).

(** ** views.py: checkout *)

(** [request.method == 'POST'], or any other method. *)
Inductive Method := GET | POST.

(** [request.POST] of the checkout form: [None] is an absent field. *)
Record CheckoutPost := {
  post_first_name : option string;
  post_last_name : option string;
  post_email : option string;
  post_phone : option string;
  post_country : option string;
  post_city : option string;
  post_postal_code : option string;
  post_address : option string;
  post_delivery_method : option string;
  post_payment_method : option string
}.

(** The flat delivery charge [500], in hundredths like every price. *)
Definition delivery_fee : Z := 500 * 100.

(** [Cart.total_price]: [sum(item.total_price() for item in self.items.all())]
    with [CartItem.total_price = self.product.price * self.quantity]. *)
Fixpoint cart_total_price (items : list CartItem.t) : M Z :=
  match items with
  | [] => mret 0
  | item :: rest =>
      product ← get_product (CartItem.product item);
      total ← cart_total_price rest;
      mret (Product.price product * CartItem.quantity item + total)
  end.

(** The first loop of [checkout]: every line is checked against the stock. *)
Definition check_cart_stock (items : list CartItem.t) : M unit :=
  for_each items (λ item,
    product ← get_product (CartItem.product item);
    if decide (CartItem.quantity item > Product.stock product)
    then fail (InsufficientStock (Product.name product))
    else mret tt).

(** The second loop of [checkout]: one [OrderItem] per line, then the stock of
    the product is reduced and saved. *)
Definition place_cart_items (order_id : Z) (items : list CartItem.t) : M unit :=
  for_each items (λ item,
    product ← get_product (CartItem.product item);
    create_order_item order_id
      (OrderItem.mk (CartItem.product item) (CartItem.quantity item)
                    (Product.price product));;
    save_product (CartItem.product item)
      (Product.with_stock (Product.stock product - CartItem.quantity item) product)).

(** The assignments [user.first_name = request.POST.get('first_name', '')]
    ... [user.address = request.POST.get('address', '')] of [checkout]. *)
Definition posted_profile (request_user : User.t) (post : CheckoutPost) : User.t :=
  User.mk (User.role request_user) (User.is_superuser request_user)
          (default EmptyString (post_first_name post))
          (default EmptyString (post_last_name post))
          (default EmptyString (post_email post))
          (default EmptyString (post_phone post))
          (default EmptyString (post_address post))
          (default EmptyString (post_city post))
          (default EmptyString (post_postal_code post))
          (default EmptyString (post_country post)).

(** The row [Order.objects.create(...)] writes in [checkout]; the fields it
    does not pass take the defaults of the model, and the order has no lines
    yet.  The total is written as computed, whatever its size (see
    [fits_total_price]). *)
Definition new_order (user : Z) (profile : User.t) (post : CheckoutPost)
    (cart_total : Z) : Order.t :=
  Order.mk user "new"
    (default "pickup" (post_delivery_method post))
    (default "online" (post_payment_method post))
    (cart_total + (if decide (post_delivery_method post = Some "delivery")
                   then delivery_fee else 0))
    (User.get_full_address profile)
    (User.city profile)
    (User.postal_code profile)
    EmptyString None "medium" [].

(** [checkout(request)] *)
Definition checkout (user : Z) (method : Method) (post : CheckoutPost) : M Response :=
  request_user ← login_required user;
  get_cart_or_404 user;;
  items ← cart_items user;
  if decide (items = [])
  then fail EmptyCart
  else
    check_cart_stock items;;
    match method with
    | POST =>
        let profile := posted_profile request_user post in
        modify (set_users (insert user profile));;
        items ← cart_items user;
        total ← cart_total_price items;
        order_id ← create_order (new_order user profile post total);
        items ← cart_items user;
        place_cart_items order_id items;;
        modify (set_carts (insert user []));;
        mret (redirect "order_detail" (Some order_id))
    | GET => mret (render "store/checkout.html")
    end.

(** ** views.py: orders *)

(** [for item in order.items.all(): product.stock += item.quantity] *)
Definition return_to_stock (items : list OrderItem.t) : M unit :=
  for_each items (λ item,
    product ← get_product (OrderItem.product item);
    save_product (OrderItem.product item)
      (Product.with_stock (Product.stock product + OrderItem.quantity item) product)).

(** [cancel_order(request, order_id)] *)
Definition cancel_order (user order_id : Z) : M Response :=
  login_required user;;
  order ← get_own_order_or_404 order_id user;
  if decide (Order.status order = "new")
  then
    return_to_stock (Order.items order);;
    save_order order_id (Order.with_status "cancelled" order);;
    mret (redirect "order_detail" (Some order_id))
  else fail InvalidTransition.

(** The loop of [admin_order_detail] that takes a cancelled order's lines out
    of the stock again: each line is checked and then deducted and saved
    before the next line is looked at. *)
Definition take_from_stock (items : list OrderItem.t) : M unit :=
  for_each items (λ item,
    product ← get_product (OrderItem.product item);
    if decide (OrderItem.quantity item > Product.stock product)
    then fail (InsufficientStock (Product.name product))
    else save_product (OrderItem.product item)
           (Product.with_stock (Product.stock product - OrderItem.quantity item) product)).

(** [request.POST] of the order page of the back office.  [adm_assigned_to] is
    the posted user id, [None] when absent or empty. *)
Record AdminOrderPost := {
  adm_status : option string;
  adm_admin_notes : option string;
  adm_assigned_to : option Z;
  adm_priority : option string
}.

(** Python truth of [request.POST.get(key)]: present and not empty. *)
Definition truthy (v : option string) : option string :=
  match v with
  | Some s => if decide (s = EmptyString) then None else Some s
  | None => None
  end.

(** The part of [admin_order_detail] after the status: notes, person in
    charge and priority are copied from the form onto the order.  A posted
    person in charge who is not a stored user leaves the field as it is. *)
Definition admin_fields (post : AdminOrderPost) (us : gmap Z User.t)
    (order : Order.t) : Order.t :=
  let order := match adm_admin_notes post with
               | Some notes => Order.with_admin_notes notes order
               | None => order
               end in
  let order := match adm_assigned_to post with
               | Some assigned_to_id =>
                   match us !! assigned_to_id with
                   | Some _ => Order.with_assigned_to (Some assigned_to_id) order
                   | None => order
                   end
               | None => Order.with_assigned_to None order
               end in
  match truthy (adm_priority post) with
  | Some priority => Order.with_priority priority order
  | None => order
  end.

(** [admin_order_detail(request, order_id)] *)
Definition admin_order_detail (user order_id : Z) (method : Method)
    (post : AdminOrderPost) : M Response :=
  user_passes_test is_admin user;;
  order ← get_order_or_404 order_id;
  match method with
  | POST =>
      let old_status := Order.status order in
      order ← match truthy (adm_status post) with
              | Some new_status =>
                  if decide (new_status ≠ old_status)
                  then
                    (if decide (new_status = "cancelled" ∧ old_status ≠ "cancelled")
                     then return_to_stock (Order.items order)
                     else if decide (old_status = "cancelled" ∧ new_status ≠ "cancelled")
                     then take_from_stock (Order.items order)
                     else mret tt);;
                    mret (Order.with_status new_status order)
                  else mret order
              | None => mret order
              end;
      db ← get;
      save_order order_id (admin_fields post (users db) order);;
      mret (render "store/admin/order_detail.html")
  | GET => mret (render "store/admin/order_detail.html")
  end.

(** [admin_order_delete(request, order_id)].  The body of the view sits in
    [try ... except Exception], which turns a missing order or product into
    an error message and a redirect; the rows written before stay written. *)
Definition admin_order_delete (user order_id : Z) (method : Method) : M Response :=
  user_passes_test is_admin user;;
  order ← get_order_or_404 order_id;
  match method with
  | POST =>
      (if decide (Order.status order ≠ "cancelled")
       then return_to_stock (Order.items order)
       else mret tt);;
      modify (set_orders (delete order_id));;
      mret (redirect "admin_order_list" None)
  | GET => mret (render "store/admin/order_confirm_delete.html")
  end.

(** ** The engine as a sequence of requests *)

Inductive Op :=
  | AddToCart (user product_id : Z)
  | RemoveFromCart (user item_id : Z)
  | UpdateCartItem (user item_id : Z) (posted : option Z)
  | Checkout (user : Z) (method : Method) (post : CheckoutPost)
  | CancelOrder (user order_id : Z)
  | AdminOrderDetail (user order_id : Z) (method : Method) (post : AdminOrderPost)
  | AdminOrderDelete (user order_id : Z) (method : Method).

Definition run_op (op : Op) : M Response :=
  match op with
  | AddToCart user product_id => add_to_cart user product_id
  | RemoveFromCart user item_id => remove_from_cart user item_id
  | UpdateCartItem user item_id posted => update_cart_item user item_id posted
  | Checkout user method post => checkout user method post
  | CancelOrder user order_id => cancel_order user order_id
  | AdminOrderDetail user order_id method post =>
      admin_order_detail user order_id method post
  | AdminOrderDelete user order_id method => admin_order_delete user order_id method
  end.

(** Requests are served one after the other; each starts from the database
    the previous one left, whatever its answer was. *)
Fixpoint run_ops (ops : list Op) (db : DB) : DB :=
  match ops with
  | [] => db
  | op :: rest => run_ops rest (run_op op db).2
  end.

(** ** Vocabulary of the properties *)

(** Units of product [pid] asked for by the lines of a cart. *)
Fixpoint wanted (pid : Z) (items : list CartItem.t) : Z :=
  match items with
  | [] => 0
  | item :: rest =>
      (if decide (CartItem.product item = pid) then CartItem.quantity item else 0)
      + wanted pid rest
  end.

(** Units of product [pid] on the lines of an order. *)
Fixpoint ordered (pid : Z) (items : list OrderItem.t) : Z :=
  match items with
  | [] => 0
  | item :: rest =>
      (if decide (OrderItem.product item = pid) then OrderItem.quantity item else 0)
      + ordered pid rest
  end.

(** The product table with [delta pid] units added to the stock of each
    product [pid]; names and prices stay. *)
Definition stock_after (delta : Z → Z) (ps : gmap Z Product.t) : gmap Z Product.t :=
  map_imap (λ pid p, Some (Product.with_stock (Product.stock p + delta pid) p)) ps.

(** The order line [checkout] writes for a cart line, given the product table
    it reads the price from. *)
Definition order_line (ps : gmap Z Product.t) (item : CartItem.t) : OrderItem.t :=
  OrderItem.mk (CartItem.product item) (CartItem.quantity item)
               (from_option Product.price 0 (ps !! CartItem.product item)).

(** [sum(quantity * price)] over the lines of a cart, at the prices of [ps]. *)
Fixpoint cart_value (ps : gmap Z Product.t) (items : list CartItem.t) : Z :=
  match items with
  | [] => 0
  | item :: rest =>
      from_option Product.price 0 (ps !! CartItem.product item)
        * CartItem.quantity item
      + cart_value ps rest
  end.

(** A cart line that the stock of [ps] can serve. *)
Definition in_stock (ps : gmap Z Product.t) (item : CartItem.t) : Prop :=
  ∃ p, ps !! CartItem.product item = Some p
       ∧ CartItem.quantity item ≤ Product.stock p.


(** [stock >= 0] for every product. *)
Definition stocks_nonneg (db : DB) : Prop :=
  ∀ pid p, products db !! pid = Some p → 0 ≤ Product.stock p.

(** The constraints the schema puts on the lines of a cart: the primary key
    is unique and was issued by the sequence, [unique_together = ('cart',
    'product')], and [quantity] is a [PositiveIntegerField]. *)
Record cart_ok (next : Z) (items : list CartItem.t) : Prop := {
  cart_ids_unique : NoDup (CartItem.id <$> items);
  cart_ids_issued : Forall (λ i, CartItem.id i < next) items;
  cart_products_unique : NoDup (CartItem.product <$> items);
  cart_quantities : Forall (λ i, 0 ≤ CartItem.quantity i) items
}.

(** The constraints of the schema on carts and order lines
    ([OrderItem.quantity] is a [PositiveIntegerField]). *)
Record schema (db : DB) : Prop := {
  carts_ok : ∀ user items,
    carts db !! user = Some items → cart_ok (next_cart_item_id db) items;
  orders_ok : ∀ order_id o,
    orders db !! order_id = Some o →
    Forall (λ i, 0 ≤ OrderItem.quantity i) (Order.items o)
}.

(** No two lines of an order are for the same product. *)
Definition distinct_lines (o : Order.t) : Prop :=
  NoDup (OrderItem.product <$> Order.items o).

(** [sum(item.total_price() for item in order.items.all())] *)
Definition order_value (items : list OrderItem.t) : Z :=
  foldr (λ item total, OrderItem.total_price item + total) 0 items.

(** The row of order [order_id] with [lines] appended to its lines. *)
Definition add_lines (order_id : Z) (lines : list OrderItem.t)
    (os : gmap Z Order.t) : gmap Z Order.t :=
  alter (λ o, Order.with_items (Order.items o ++ lines) o) order_id os.

(** The state the engine keeps: the constraints of the schema hold and no
    stock is negative. *)
Record consistent (db : DB) : Prop := {
  consistent_schema : schema db;
  consistent_stock : stocks_nonneg db
}.

Definition carts_inv (next : Z) (cs : gmap Z (list CartItem.t)) : Prop :=
  ∀ user items, cs !! user = Some items → cart_ok next items.

Definition orders_inv (os : gmap Z Order.t) : Prop :=
  ∀ order_id o, os !! order_id = Some o →
    Forall (λ i, 0 ≤ OrderItem.quantity i) (Order.items o).

(** [db'] differs from [db] in the product table only, and has no negative
    stock if [db] has none. *)
Record restocked (db db' : DB) : Prop := {
  restocked_users : users db' = users db;
  restocked_carts : carts db' = carts db;
  restocked_orders : orders db' = orders db;
  restocked_cart_ids : next_cart_item_id db' = next_cart_item_id db;
  restocked_order_ids : next_order_id db' = next_order_id db;
  restocked_stock : stocks_nonneg db → stocks_nonneg db'
}.

(** Every order of [db'] was in [db] with the same lines. *)
Definition lines_kept (os os' : gmap Z Order.t) : Prop :=
  ∀ order_id o', os' !! order_id = Some o' →
    ∃ o, os !! order_id = Some o ∧ Order.items o' = Order.items o.

(** ** A sample database *)

(** A small shop the statements below are exercised on: a customer (1) and
    an administrator (2); three products; the customer's cart holds five
    units of product 12, of which three are in stock; order 7 of the customer
    was cancelled, order 8 is new. *)
Definition customer : User.t :=
  User.mk "user" false "Anna" "Ivanova" "anna@example.org" "100" "Mira 5"
          "Omsk" "644000" "RU".
Definition manager : User.t :=
  User.mk "admin" false "Oleg" "Petrov" "oleg@example.org" "200" "Lenina 1"
          "Omsk" "644001" "RU".
Definition paper : Product.t := Product.mk "Paper" 1000 1.
Definition vinyl : Product.t := Product.mk "Vinyl" 2500 0.
Definition fabric : Product.t := Product.mk "Fabric" 4000 3.
Definition order7 : Order.t :=
  Order.mk 1 "cancelled" "pickup" "cod" 13500 "Mira 5" "Omsk" "644000" "none"
           None "medium" [OrderItem.mk 10 1 1000; OrderItem.mk 11 5 2500].
Definition order8 : Order.t :=
  Order.mk 1 "new" "pickup" "cod" 3500 "Mira 5" "Omsk" "644000" "none"
           None "medium" [OrderItem.mk 10 2 1000; OrderItem.mk 11 1 1500].
Definition shop : DB :=
  mkDB {[ 1 := customer; 2 := manager ]}
       {[ 10 := paper; 11 := vinyl; 12 := fabric ]}
       {[ 1 := [CartItem.mk 1 12 5] ]}
       {[ 7 := order7; 8 := order8 ]}
       2 9.

(** The same shop with two units of product 12 in the cart. *)
Definition shop_small_cart : DB :=
  set_carts (λ _, {[ 1 := [CartItem.mk 1 12 2] ]}) shop.

(** The same shop with three units of product 12 in the cart. *)
Definition shop_full_cart : DB :=
  set_carts (λ _, {[ 1 := [CartItem.mk 1 12 3] ]}) shop.

(** Two forms of the order page: to [cancelled], and back to [new]. *)
Definition to_cancelled : AdminOrderPost :=
  Build_AdminOrderPost (Some "cancelled") None None None.
Definition to_new : AdminOrderPost :=
  Build_AdminOrderPost (Some "new") None None None.

(** A day in the shop: the customer puts paper in the cart, lowers the
    fabric to three, orders with delivery, cancels the new order; the
    administrator tries to revive order 7, cancels and revives order 8 and
    deletes it. *)
Definition day : list Op :=
  [ AddToCart 1 10;
    UpdateCartItem 1 1 (Some 3);
    Checkout 1 POST
      (Build_CheckoutPost None None None None None None None None
         (Some "delivery") None);
    CancelOrder 1 9;
    AdminOrderDetail 2 7 POST to_new;
    AdminOrderDetail 2 8 POST to_cancelled;
    AdminOrderDetail 2 8 POST to_new;
    AdminOrderDelete 2 8 POST ].

(** ** Further code of the store *)

(** [Cart.total_items]: [sum(item.quantity for item in self.items.all())] *)
Definition total_items (items : list CartItem.t) : Z :=
  foldl (λ total item, total + CartItem.quantity item) 0 items.

(** [context_processors.cart_items_count]: the number of lines of the
    caller's cart, and 0 for a caller who is not logged in or has no cart. *)
Definition cart_items_count (user : Z) (db : DB) : Z :=
  match users db !! user with
  | Some _ =>
      match carts db !! user with
      | Some items => Z.of_nat (length items)
      | None => 0
      end
  | None => 0
  end.

(** [self.total_price = ...] on an order in memory. *)
Definition order_with_total_price (total : Z) (self : Order.t) : Order.t :=
  Order.mk (Order.user self) (Order.status self) (Order.delivery_method self)
           (Order.payment_method self) total (Order.shipping_address self)
           (Order.shipping_city self) (Order.shipping_zip_code self)
           (Order.admin_notes self) (Order.assigned_to self)
           (Order.priority self) (Order.items self).

(** [Order.update_total_price] of the order [self] stored under [order_id]:
    the lines are read from the database, their totals are summed, and the
    order is saved. *)
Definition update_total_price (order_id : Z) (self : Order.t) : M unit :=
  db ← get;
  let items := default [] (Order.items <$> orders db !! order_id) in
  save_order order_id (order_with_total_price (order_value items) self).

(** [product.delete()]: [CartItem.product] and [OrderItem.product] are
    declared [on_delete=models.CASCADE], so the lines of carts and orders
    that point to the product go with it. *)
Definition delete_product (product_id : Z) : M unit :=
  modify (λ db,
    mkDB (users db)
         (delete product_id (products db))
         (filter (λ ci, CartItem.product ci ≠ product_id) <$> carts db)
         ((λ o, Order.with_items
                  (filter (λ oi, OrderItem.product oi ≠ product_id) (Order.items o))
                  o) <$> orders db)
         (next_cart_item_id db) (next_order_id db)).

(** [admin_product_delete(request, product_id)] *)
Definition admin_product_delete (user product_id : Z) (method : Method) : M Response :=
  user_passes_test is_admin user;;
  get_product_or_404 product_id;;
  match method with
  | POST =>
      delete_product product_id;;
      mret (redirect "admin_product_list" None)
  | GET => mret (render "store/admin/product_confirm_delete.html")
  end.

(** [request.POST] of the profile form: [None] is an absent field. *)
Record ProfilePost := {
  prof_first_name : option string;
  prof_last_name : option string;
  prof_email : option string;
  prof_phone : option string;
  prof_address : option string;
  prof_city : option string;
  prof_postal_code : option string;
  prof_country : option string
}.

(** The message [update_profile] leaves before it redirects to the profile:
    "Профиль успешно обновлен", "Пользователь с таким email уже существует."
    or "Неверный запрос". *)
Inductive ProfileMessage := ProfileUpdated | EmailTaken | BadRequest.

(** The assignments [user.first_name = request.POST.get('first_name', '')]
    ... [user.country = request.POST.get('country', 'Россия')] of
    [update_profile]. *)
Definition profile_from_form (request_user : User.t) (post : ProfilePost) : User.t :=
  User.mk (User.role request_user) (User.is_superuser request_user)
          (default EmptyString (prof_first_name post))
          (default EmptyString (prof_last_name post))
          (default EmptyString (prof_email post))
          (default EmptyString (prof_phone post))
          (default EmptyString (prof_address post))
          (default EmptyString (prof_city post))
          (default EmptyString (prof_postal_code post))
          (default "Россия" (prof_country post)).

(** [User.objects.filter(email=email).exclude(id=user).exists()] *)
Definition email_in_use (email : string) (user : Z) (us : gmap Z User.t) : bool :=
  existsb (λ row, bool_decide (User.email row.2 = email ∧ row.1 ≠ user))
          (map_to_list us).

(** [update_profile(request)].  The view starts with [user = request.user]:
    both names are the one object in memory, so the assignments to [user]
    are seen through [request.user] as well, and the comparison
    [user.email != request.user.email] reads the posted email on both
    sides. *)
Definition update_profile (user : Z) (method : Method) (post : ProfilePost)
    : M ProfileMessage :=
  stored ← login_required user;
  match method with
  | POST =>
      let object := profile_from_form stored post in
      let user_ := object in
      let request_user := object in
      if decide (User.email user_ ≠ User.email request_user)
      then
        db ← get;
        if email_in_use (User.email user_) user (users db)
        then mret EmailTaken
        else modify (set_users (insert user user_));; mret ProfileUpdated
      else modify (set_users (insert user user_));; mret ProfileUpdated
  | GET => mret BadRequest
  end.

(** ** Further vocabulary *)

(** [Order.total_price] is a [DecimalField(max_digits=10, decimal_places=2)]:
    a total can be read back from its column when it has at most ten digits,
    two of them decimals; counted in hundredths this is a value below
    [10 ^ 10].  [checkout] does not check the total it writes against that. *)
Definition max_digits : Z := 10.
Definition fits_total_price (total : Z) : Prop :=
  Z.abs total < 10 ^ max_digits.

(** Every line of a cart or of an order points to a stored product
    ([ForeignKey]). *)
Record references_ok (db : DB) : Prop := {
  cart_references : ∀ user items, carts db !! user = Some items →
    Forall (λ i, is_Some (products db !! CartItem.product i)) items;
  order_references : ∀ order_id o, orders db !! order_id = Some o →
    Forall (λ i, is_Some (products db !! OrderItem.product i)) (Order.items o)
}.

(** The primary-key sequence of [Order] is ahead of every stored order. *)
Definition order_ids_issued (db : DB) : Prop :=
  ∀ order_id, is_Some (orders db !! order_id) → order_id < next_order_id db.

(** Every line of every cart asks for at least one unit. *)
Definition carts_positive (db : DB) : Prop :=
  ∀ user items, carts db !! user = Some items →
    Forall (λ i, 1 ≤ CartItem.quantity i) items.

(** The user a request is made by. *)
Definition op_user (op : Op) : Z :=
  match op with
  | AddToCart user _ | RemoveFromCart user _ | UpdateCartItem user _ _
  | Checkout user _ _ | CancelOrder user _ | AdminOrderDetail user _ _ _
  | AdminOrderDelete user _ _ => user
  end.

(** The sample shop with a second customer (3), whose email is the one the
    first customer posts below. *)
Definition shop_two_customers : DB :=
  set_users (insert 3 (User.mk "user" false "Boris" "Orlov" "boris@example.org"
                               "300" "Mira 7" "Omsk" "644002" "RU")) shop.

Definition boris_email : ProfilePost :=
  Build_ProfilePost (Some "Anna") None (Some "boris@example.org") None None
                    None None None.

(** What a view of the cart leaves alone. *)
Record cart_view_frame (db db' : DB) : Prop := {
  cart_view_users : users db' = users db;
  cart_view_products : products db' = products db;
  cart_view_orders : orders db' = orders db;
  cart_view_order_ids : next_order_id db' = next_order_id db
}.

(** What a view of the orders leaves alone: it may move stock and rewrite or
    delete orders, but it creates no order, and no product comes or goes. *)
Record order_view_frame (db db' : DB) : Prop := {
  order_view_users : users db' = users db;
  order_view_carts : carts db' = carts db;
  order_view_cart_ids : next_cart_item_id db' = next_cart_item_id db;
  order_view_order_ids : next_order_id db' = next_order_id db;
  order_view_catalog : ∀ pid,
    is_Some (products db' !! pid) ↔ is_Some (products db !! pid)
}.

(** What stays of an order whatever is done with it later: the buyer, the
    lines with their prices, the total, and how it is delivered and paid. *)
Record same_purchase (o o' : Order.t) : Prop := {
  same_user : Order.user o' = Order.user o;
  same_items : Order.items o' = Order.items o;
  same_total_price : Order.total_price o' = Order.total_price o;
  same_delivery_method : Order.delivery_method o' = Order.delivery_method o;
  same_payment_method : Order.payment_method o' = Order.payment_method o;
  same_shipping_address : Order.shipping_address o' = Order.shipping_address o;
  same_shipping_city : Order.shipping_city o' = Order.shipping_city o;
  same_shipping_zip_code : Order.shipping_zip_code o' = Order.shipping_zip_code o
}.

(** Every order of [os'] was in [os] under the same identifier, as the same
    purchase. *)
Definition purchases_kept (os os' : gmap Z Order.t) : Prop :=
  ∀ order_id o', os' !! order_id = Some o' →
    ∃ o, os !! order_id = Some o ∧ same_purchase o o'.

(** Every line of every cart of the table satisfies [P]. *)
Definition carts_all (P : CartItem.t → Prop) (cs : gmap Z (list CartItem.t)) : Prop :=
  ∀ user items, cs !! user = Some items → Forall P items.

(** * Reasoning about the views *)

(** ** Running monadic code *)

Lemma bind_ok {A B} (m : M A) (k : A → M B) db a db1 :
  m db = (Ok a, db1) → (m ≫= k) db = k a db1.
Proof. unfold mbind, M_bind. by intros ->. Qed.

Lemma bind_err {A B} (m : M A) (k : A → M B) db e db1 :
  m db = (Err e, db1) → (m ≫= k) db = (Err e, db1).
Proof. unfold mbind, M_bind. by intros ->. Qed.

Lemma get_product_some db pid p :
  products db !! pid = Some p → get_product pid db = (Ok p, db).
Proof. unfold get_product, get, or_fail, mbind, M_bind. by intros ->. Qed.

Lemma for_each_cons {A} (x : A) l body :
  for_each (x :: l) body = (body x;; for_each l body).
Proof. done. Qed.

(** A property kept by every round of a loop is kept by the loop, however it
    ends. *)
Lemma for_each_preserves {A} (P : DB → Prop) (l : list A) (body : A → M unit) :
  (∀ x db, x ∈ l → P db → P (body x db).2) →
  ∀ db, P db → P (for_each l body db).2.
Proof.
  induction l as [|x l IH]; intros Hbody db HP; [done|].
  rewrite for_each_cons. unfold mbind, M_bind.
  pose proof (Hbody x db ltac:(left) HP) as Hx.
  destruct (body x db) as [[[]|e] db1]; simpl in *; [|done].
  apply IH; [|done]. intros y db' Hy. apply Hbody. by right.
Qed.

Ltac run_m :=
  cbv [mbind M_bind mret M_ret get modify fail or_fail
       login_required user_passes_test get_product_or_404 get_product
       save_product cart_items get_or_create_cart get_cart_or_404
       get_or_create_cart_item get_cart_item_or_404 save_cart_item
       delete_cart_item get_order_or_404 get_own_order_or_404 save_order
       create_order create_order_item].

(** ** The product table under stock movements *)

Lemma lookup_stock_after delta ps pid :
  stock_after delta ps !! pid
  = (λ p, Product.with_stock (Product.stock p + delta pid) p) <$> ps !! pid.
Proof.
  unfold stock_after. rewrite map_lookup_imap.
  by destruct (ps !! pid).
Qed.

Lemma with_stock_same p : Product.with_stock (Product.stock p) p = p.
Proof. by destruct p. Qed.

Lemma stock_after_zero delta ps :
  (∀ pid, is_Some (ps !! pid) → delta pid = 0) → stock_after delta ps = ps.
Proof.
  intros H. apply map_eq. intros pid. rewrite lookup_stock_after.
  destruct (ps !! pid) as [p|] eqn:E; [|done]. simpl.
  rewrite H by done. by rewrite Z.add_0_r, with_stock_same.
Qed.

Lemma stock_after_insert delta delta' ps pid p n :
  ps !! pid = Some p →
  (∀ pid', delta' pid' = (if decide (pid = pid') then n else 0) + delta pid') →
  stock_after delta (<[pid := Product.with_stock (Product.stock p + n) p]> ps)
  = stock_after delta' ps.
Proof.
  intros Hp Hd. apply map_eq. intros pid'. rewrite !lookup_stock_after, Hd.
  destruct (decide (pid = pid')) as [<-|Hne].
  - rewrite lookup_insert_eq, Hp. simpl. unfold Product.with_stock. simpl.
    f_equal. f_equal. lia.
  - rewrite lookup_insert_ne by done. by rewrite Z.add_0_l.
Qed.

(** ** The loops over order lines *)

Lemma DB_eq db1 db2 :
  users db1 = users db2 →
  products db1 = products db2 →
  carts db1 = carts db2 →
  orders db1 = orders db2 →
  next_cart_item_id db1 = next_cart_item_id db2 →
  next_order_id db1 = next_order_id db2 →
  db1 = db2.
Proof. destruct db1, db2. simpl. by intros -> -> -> -> -> ->. Qed.

Ltac db_fields :=
  cbn [set_users set_products set_carts set_orders fst snd
       users products carts orders next_cart_item_id next_order_id] in *.

(** Rewrite with a known row until the code that reads it is through. *)
Ltac settle H :=
  repeat first [rewrite H | progress cbn [from_option id] | progress db_fields].

Lemma set_products_set_products f g db :
  set_products f (set_products g db) = set_products (f ∘ g) db.
Proof. done. Qed.

Lemma set_products_id db : set_products (λ ps, ps) db = db.
Proof. by destruct db. Qed.

Lemma set_products_ext f g db :
  f (products db) = g (products db) → set_products f db = set_products g db.
Proof. unfold set_products. by intros ->. Qed.

(** [return_to_stock] adds every line to the stock of its product. *)
Lemma return_to_stock_run items db :
  Forall (λ i, is_Some (products db !! OrderItem.product i)) items →
  return_to_stock items db
  = (Ok tt, set_products (stock_after (λ pid, ordered pid items)) db).
Proof.
  unfold return_to_stock. revert db.
  induction items as [|item rest IH]; intros db Hfk.
  - simpl. unfold mret, M_ret. f_equal.
    rewrite <- (set_products_id db) at 1. apply set_products_ext.
    symmetry. by apply stock_after_zero.
  - apply Forall_cons in Hfk as [[p Hp] Hrest].
    rewrite for_each_cons.
    erewrite bind_ok; last first.
    { erewrite bind_ok by by apply get_product_some. done. }
    rewrite IH.
    + f_equal. rewrite set_products_set_products. apply set_products_ext.
      simpl. by apply stock_after_insert with (n := OrderItem.quantity item).
    + eapply Forall_impl; [exact Hrest|]. simpl. intros i [q Hq].
      destruct (decide (OrderItem.product item = OrderItem.product i)) as [->|Hne].
      * rewrite lookup_insert_eq. eauto.
      * rewrite lookup_insert_ne by done. eauto.
Qed.






(** ** The loops over cart lines *)

(** The stock check of [checkout] reads only, and passes exactly when every
    line can be served. *)
Lemma check_cart_stock_ok items db :
  Forall (in_stock (products db)) items →
  check_cart_stock items db = (Ok tt, db).
Proof.
  unfold check_cart_stock. induction 1 as [|item rest (p & Hp & Hq) _ IH]; [done|].
  rewrite for_each_cons. erewrite bind_ok; [exact IH|].
  erewrite bind_ok by by apply get_product_some.
  destruct (decide (CartItem.quantity item > Product.stock p)); [lia|done].
Qed.

(** It stops at the first line that asks for more than the stock, with the
    name of that line's product, and has written nothing. *)
Lemma check_cart_stock_short pre item post db p :
  Forall (in_stock (products db)) pre →
  products db !! CartItem.product item = Some p →
  CartItem.quantity item > Product.stock p →
  check_cart_stock (pre ++ item :: post) db
  = (Err (InsufficientStock (Product.name p)), db).
Proof.
  unfold check_cart_stock.
  induction 1 as [|x pre (px & Hpx & Hqx) _ IH]; intros Hp Hq.
  - rewrite app_nil_l, for_each_cons. erewrite bind_err; [done|].
    erewrite bind_ok by by apply get_product_some.
    destruct (decide (CartItem.quantity item > Product.stock p)); [done|lia].
  - rewrite <- app_comm_cons, for_each_cons.
    erewrite bind_ok; [by apply IH|].
    erewrite bind_ok by by apply get_product_some.
    destruct (decide (CartItem.quantity x > Product.stock px)); [lia|done].
Qed.

(** Whatever the outcome, the check leaves the database as it was. *)
Lemma check_cart_stock_reads items db : (check_cart_stock items db).2 = db.
Proof.
  unfold check_cart_stock.
  apply (for_each_preserves (λ db', db' = db)); [|done].
  intros x db' _ ->. run_m.
  destruct (products db !! CartItem.product x) as [p|]; [|done].
  by destruct (decide (CartItem.quantity x > Product.stock p)).
Qed.

(** If the check passes, every line can be served. *)
Lemma check_cart_stock_passed items db db' :
  check_cart_stock items db = (Ok tt, db') →
  Forall (in_stock (products db)) items.
Proof.
  unfold check_cart_stock. induction items as [|item rest IH]; [constructor|].
  rewrite for_each_cons. run_m.
  destruct (products db !! CartItem.product item) as [p|] eqn:Hp; [|done].
  destruct (decide (CartItem.quantity item > Product.stock p)); [done|].
  intros Hrest. constructor; [|apply IH; exact Hrest].
  exists p. split; [done|lia].
Qed.

Lemma first_short_cart_line ps (items : list CartItem.t) :
  Forall (λ i, is_Some (ps !! CartItem.product i)) items →
  Exists (λ i, ¬ in_stock ps i) items →
  ∃ pre item post p,
    items = pre ++ item :: post
    ∧ Forall (in_stock ps) pre
    ∧ ps !! CartItem.product item = Some p
    ∧ CartItem.quantity item > Product.stock p.
Proof.
  induction items as [|x rest IH]; intros Hfk Hex.
  - by apply Exists_nil in Hex.
  - apply Forall_cons in Hfk as [[p Hp] Hfk].
    destruct (decide (CartItem.quantity x ≤ Product.stock p)) as [Hle|Hgt].
    + apply Exists_cons in Hex as [Hx|Hex].
      { destruct Hx. by exists p. }
      destruct (IH Hfk Hex) as (pre & item & post & q & -> & Hpre & Hq & Hs).
      exists (x :: pre), item, post, q. split_and!; try done.
      constructor; [by exists p|done].
    + exists [], x, rest, p. split_and!; try done. lia.
Qed.

(** [Cart.total_price] reads only and sums quantity times price. *)
Lemma cart_total_price_run items db :
  Forall (λ i, is_Some (products db !! CartItem.product i)) items →
  cart_total_price items db = (Ok (cart_value (products db) items), db).
Proof.
  induction 1 as [|item rest [p Hp] _ IH]; [done|].
  simpl. erewrite bind_ok by by apply get_product_some.
  erewrite bind_ok by exact IH.
  by rewrite Hp.
Qed.

Lemma in_stock_exists ps items :
  Forall (in_stock ps) items →
  Forall (λ i, is_Some (ps !! CartItem.product i)) items.
Proof. intros H. eapply Forall_impl; [exact H|]. intros i (p & Hp & _). eauto. Qed.

Lemma order_line_insert ps pid p n (rest : list CartItem.t) :
  ps !! pid = Some p →
  order_line (<[pid := Product.with_stock n p]> ps) <$> rest
  = order_line ps <$> rest.
Proof.
  intros Hp. apply list_fmap_ext. intros _ i _. unfold order_line. f_equal.
  destruct (decide (pid = CartItem.product i)) as [<-|Hne].
  - by rewrite lookup_insert_eq, Hp.
  - by rewrite lookup_insert_ne.
Qed.

Lemma add_lines_nil order_id os : add_lines order_id [] os = os.
Proof.
  apply map_eq. intros i. unfold add_lines. rewrite lookup_alter.
  case_decide; [|done]. subst.
  destruct (os !! i) as [o|]; [|done]. simpl. f_equal.
  destruct o. unfold Order.with_items. simpl. by rewrite app_nil_r.
Qed.

Lemma add_lines_cons order_id line lines os :
  add_lines order_id lines (add_lines order_id [line] os)
  = add_lines order_id (line :: lines) os.
Proof.
  apply map_eq. intros i. unfold add_lines.
  destruct (decide (order_id = i)) as [<-|Hne].
  - rewrite !lookup_alter_eq.
    destruct (os !! order_id) as [o|]; [|done]. simpl. f_equal.
    unfold Order.with_items. simpl. by rewrite <- app_assoc.
  - by rewrite !lookup_alter_ne.
Qed.

(** The second loop of [checkout] writes one order line per cart line, at the
    price of the product, and deducts every line from the stock. *)
Lemma place_cart_items_run order_id items db :
  Forall (λ i, is_Some (products db !! CartItem.product i)) items →
  place_cart_items order_id items db
  = (Ok tt,
     set_orders (add_lines order_id (order_line (products db) <$> items))
       (set_products (stock_after (λ pid, - wanted pid items)) db)).
Proof.
  unfold place_cart_items. revert db.
  induction items as [|item rest IH]; intros db Hfk.
  - cbn [for_each]. unfold mret, M_ret. f_equal. rewrite fmap_nil.
    destruct db. unfold set_orders, set_products.
    cbn [products orders users carts next_cart_item_id next_order_id].
    rewrite stock_after_zero by done. by rewrite add_lines_nil.
  - apply Forall_cons in Hfk as [[p Hp] Hrest].
    rewrite for_each_cons.
    erewrite bind_ok; last first.
    { erewrite bind_ok by by apply get_product_some.
      erewrite bind_ok by done. done. }
    rewrite IH.
    + f_equal. apply DB_eq; db_fields; try done.
      * apply stock_after_insert with (n := - CartItem.quantity item);
          [done|]. intros pid'. simpl. case_decide; lia.
      * rewrite order_line_insert by done.
        rewrite fmap_cons. rewrite <- add_lines_cons. f_equal.
        unfold order_line. by rewrite Hp.
    + eapply Forall_impl; [exact Hrest|]. simpl. intros i [q Hq].
      destruct (decide (CartItem.product item = CartItem.product i)) as [->|Hne].
      * rewrite lookup_insert_eq. eauto.
      * rewrite lookup_insert_ne by done. eauto.
Qed.

(** ** Lines of a cart *)

(** The lookup of [get_or_create] finds the line of the product. *)
Lemma find_line product_id pre ci post :
  CartItem.product ci = product_id →
  product_id ∉ CartItem.product <$> pre →
  find (λ x, CartItem.product x =? product_id) (pre ++ ci :: post) = Some ci.
Proof.
  intros Hci. induction pre as [|x pre IH]; intros Hnot; simpl.
  - by rewrite Hci, Z.eqb_refl.
  - rewrite fmap_cons, not_elem_of_cons in Hnot. destruct Hnot as [Hne Hnot].
    destruct (Z.eqb_spec (CartItem.product x) product_id); [done|by apply IH].
Qed.

Lemma find_no_line product_id (items : list CartItem.t) :
  product_id ∉ CartItem.product <$> items →
  find (λ x, CartItem.product x =? product_id) items = None.
Proof.
  induction items as [|x items IH]; intros Hnot; simpl; [done|].
  rewrite fmap_cons, not_elem_of_cons in Hnot. destruct Hnot as [Hne Hnot].
  destruct (Z.eqb_spec (CartItem.product x) product_id); [done|by apply IH].
Qed.

Lemma map_other_ids (ci' : CartItem.t) (l : list CartItem.t) :
  CartItem.id ci' ∉ CartItem.id <$> l →
  map (λ x, if CartItem.id x =? CartItem.id ci' then ci' else x) l = l.
Proof.
  induction l as [|x l IH]; intros Hnot; simpl; [done|].
  rewrite fmap_cons, not_elem_of_cons in Hnot. destruct Hnot as [Hne Hnot].
  destruct (Z.eqb_spec (CartItem.id x) (CartItem.id ci')); [done|].
  by rewrite IH.
Qed.

(** Saving a line rewrites the row with its primary key and no other. *)
Lemma save_line pre ci post ci' :
  CartItem.id ci' = CartItem.id ci →
  CartItem.id ci ∉ CartItem.id <$> pre ++ post →
  map (λ x, if CartItem.id x =? CartItem.id ci' then ci' else x) (pre ++ ci :: post)
  = pre ++ ci' :: post.
Proof.
  intros Hid Hnot. rewrite fmap_app, not_elem_of_app in Hnot.
  destruct Hnot as [Hpre Hpost]. rewrite <- Hid in Hpre, Hpost.
  rewrite map_app. simpl. rewrite <- Hid, Z.eqb_refl.
  by rewrite !map_other_ids.
Qed.

(** * Properties of the cart *)

(** C9: [add_to_cart] on a product whose stock is [<= 0] fails with
    [OutOfStock] and writes nothing, so no cart line is created.  Past that
    guard, when the cart already has a line for the product, the line's
    quantity grows by one if the new quantity is at most the stock of the
    product; otherwise the call fails with [InsufficientStock] and writes
    nothing, so the line keeps its quantity. *)
Theorem add_to_cart_stock_ceiling db user product_id u p :
  users db !! user = Some u →
  products db !! product_id = Some p →
  (Product.stock p ≤ 0 →
   add_to_cart user product_id db = (Err (OutOfStock (Product.name p)), db))
  ∧ (∀ pre ci post,
       0 < Product.stock p →
       carts db !! user = Some (pre ++ ci :: post) →
       CartItem.product ci = product_id →
       product_id ∉ CartItem.product <$> pre →
       CartItem.id ci ∉ CartItem.id <$> pre ++ post →
       (CartItem.quantity ci + 1 ≤ Product.stock p →
        add_to_cart user product_id db
        = (Ok (redirect "cart" None),
           set_carts
             (insert user
                (pre ++ CartItem.with_quantity (CartItem.quantity ci + 1) ci :: post))
             db))
       ∧ (CartItem.quantity ci + 1 > Product.stock p →
          add_to_cart user product_id db
          = (Err (InsufficientStock (Product.name p)), db))).
Proof.
  intros Hu Hp. split.
  - intros Hs. unfold add_to_cart. run_m. rewrite Hu, Hp.
    destruct (decide (Product.stock p ≤ 0)); [done|lia].
  - intros pre ci post Hs Hcart Hci Hfirst Hid.
    assert (Hfind := find_line product_id pre ci post Hci Hfirst).
    split; intros Hq; unfold add_to_cart; run_m; rewrite Hu, Hp;
      (destruct (decide (Product.stock p ≤ 0)); [lia|]);
      rewrite Hcart; cbn [from_option id]; rewrite Hcart;
      cbn [from_option id]; rewrite Hfind; cbn [negb];
      destruct (decide (CartItem.quantity ci + 1 > Product.stock p)); try lia.
    + f_equal. apply DB_eq; db_fields; try done.
      apply map_eq. intros i. destruct (decide (user = i)) as [<-|Hne].
      * rewrite lookup_alter_eq, lookup_insert_eq, Hcart. simpl. f_equal.
        by apply (save_line pre ci post
                    (CartItem.with_quantity (CartItem.quantity ci + 1) ci)).
      * by rewrite lookup_alter_ne, lookup_insert_ne.
    + done.
Qed.

Lemma add_to_cart_stock_ceiling_witness :
  add_to_cart 1 11 shop = (Err (OutOfStock "Vinyl"), shop)
  ∧ add_to_cart 1 12 shop_small_cart
    = (Ok (redirect "cart" None),
       set_carts (insert 1 [CartItem.mk 1 12 3]) shop_small_cart)
  ∧ add_to_cart 1 12 shop_full_cart
    = (Err (InsufficientStock "Fabric"), shop_full_cart).
Proof.
  split; [|split].
  - apply (add_to_cart_stock_ceiling shop 1 11 customer vinyl);
      [reflexivity|reflexivity|simpl; lia].
  - apply (proj2 (add_to_cart_stock_ceiling shop_small_cart 1 12 customer fabric
                    eq_refl eq_refl) [] (CartItem.mk 1 12 2) []);
      [simpl; lia|reflexivity|reflexivity|apply not_elem_of_nil
      |apply not_elem_of_nil|simpl; lia].
  - apply (proj2 (add_to_cart_stock_ceiling shop_full_cart 1 12 customer fabric
                    eq_refl eq_refl) [] (CartItem.mk 1 12 3) []);
      [simpl; lia|reflexivity|reflexivity|apply not_elem_of_nil
      |apply not_elem_of_nil|simpl; lia].
Defined.

(** C10: past the [OutOfStock] guard the stock is at least 1, so the line
    that [add_to_cart] creates for a product not yet in the cart, with its
    quantity 1, never exceeds the stock: the comparison that would delete the
    new line is false, and the call succeeds with the line added to the
    cart. *)
Theorem add_to_cart_new_line db user product_id u p :
  users db !! user = Some u →
  products db !! product_id = Some p →
  ¬ Product.stock p ≤ 0 →
  product_id ∉ CartItem.product <$> default [] (carts db !! user) →
  let line := CartItem.mk (next_cart_item_id db) product_id 1 in
  1 ≤ Product.stock p
  ∧ ¬ CartItem.quantity line > Product.stock p
  ∧ add_to_cart user product_id db
    = (Ok (redirect "cart" None),
       mkDB (users db) (products db)
            (<[user := default [] (carts db !! user) ++ [line]]> (carts db))
            (orders db) (next_cart_item_id db + 1) (next_order_id db)).
Proof.
  intros Hu Hp Hs Hnew line. split; [lia|]. split; [simpl; lia|].
  assert (Hfind := find_no_line product_id _ Hnew).
  unfold add_to_cart. run_m. rewrite Hu, Hp.
  destruct (decide (Product.stock p ≤ 0)); [lia|].
  destruct (carts db !! user) as [items|] eqn:Hcart; db_fields.
  - rewrite Hcart. cbn [from_option id] in *. rewrite Hfind.
    cbn [negb CartItem.quantity].
    destruct (decide (1 > Product.stock p)); [lia|done].
  - rewrite lookup_insert_eq. cbn [from_option id] in *.
    cbn [find negb CartItem.quantity].
    destruct (decide (1 > Product.stock p)); [lia|].
    f_equal. apply DB_eq; db_fields; try done.
    by rewrite insert_insert_eq.
Qed.

Lemma add_to_cart_new_line_witness :
  1 ≤ Product.stock paper
  ∧ ¬ 1 > Product.stock paper
  ∧ add_to_cart 1 10 shop
    = (Ok (redirect "cart" None),
       mkDB (users shop) (products shop)
            (<[1 := [CartItem.mk 1 12 5; CartItem.mk 2 10 1]]> (carts shop))
            (orders shop) 3 9).
Proof.
  apply (add_to_cart_new_line shop 1 10 customer paper);
    [reflexivity|reflexivity|simpl; lia|].
  refine (bool_decide_unpack _ _). vm_compute. exact I.
Defined.

(** * Properties of checkout *)

Lemma wanted_absent pid (items : list CartItem.t) :
  pid ∉ CartItem.product <$> items → wanted pid items = 0.
Proof.
  induction items as [|x items IH]; intros Hnot; simpl; [done|].
  rewrite fmap_cons, not_elem_of_cons in Hnot. destruct Hnot as [Hne Hnot].
  rewrite IH by done. case_decide; [congruence|lia].
Qed.

(** Under [unique_together] a product is asked for by one line only. *)
Lemma wanted_line item (items : list CartItem.t) :
  NoDup (CartItem.product <$> items) →
  item ∈ items →
  wanted (CartItem.product item) items = CartItem.quantity item.
Proof.
  induction items as [|x items IH]; intros Hnd Hin; [by apply elem_of_nil in Hin|].
  rewrite fmap_cons in Hnd. apply NoDup_cons in Hnd as [Hnot Hnd].
  apply elem_of_cons in Hin as [->|Hin]; simpl.
  - rewrite wanted_absent by done. case_decide; [lia|done].
  - rewrite IH by done. case_decide as Heq; [|lia].
    destruct Hnot. rewrite Heq. by apply list_elem_of_fmap_2.
Qed.

Lemma order_value_lines ps items :
  order_value (order_line ps <$> items) = cart_value ps items.
Proof.
  induction items as [|x items IH]; [done|].
  rewrite fmap_cons. simpl. by rewrite IH.
Qed.

Lemma add_lines_new order_id lines o os :
  Order.items o = [] →
  add_lines order_id lines (<[order_id := o]> os)
  = <[order_id := Order.with_items lines o]> os.
Proof.
  intros Ho. unfold add_lines. rewrite alter_insert_eq. by rewrite Ho.
Qed.

(** The fee is charged exactly when the stored [delivery_method] is
    [delivery]. *)
Lemma delivery_charged post :
  (if decide (post_delivery_method post = Some "delivery")
   then delivery_fee else 0)
  = (if decide (default "pickup" (post_delivery_method post) = "delivery")
     then delivery_fee else 0).
Proof.
  destruct (post_delivery_method post) as [m|]; simpl;
    repeat case_decide; simplify_eq; done.
Qed.

(** What a [POST] to [checkout] does when the cart is not empty and every
    line can be served: the profile is saved, the order and its lines are
    written, every line is deducted from the stock and the cart is emptied. *)
Lemma checkout_run db user post u items :
  users db !! user = Some u →
  carts db !! user = Some items →
  items ≠ [] →
  Forall (in_stock (products db)) items →
  checkout user POST post db
  = (Ok (redirect "order_detail" (Some (next_order_id db))),
     mkDB (<[user := posted_profile u post]> (users db))
          (stock_after (λ pid, - wanted pid items) (products db))
          (<[user := []]> (carts db))
          (<[next_order_id db :=
               Order.with_items (order_line (products db) <$> items)
                 (new_order user (posted_profile u post) post
                    (cart_value (products db) items))]> (orders db))
          (next_cart_item_id db) (next_order_id db + 1)).
Proof.
  intros Hu Hcart Hne Hstock. unfold checkout.
  pose proof (in_stock_exists _ _ Hstock) as Hfk.
  run_m. rewrite Hu. settle Hcart.
  destruct (decide (items = [])); [done|].
  rewrite check_cart_stock_ok by done. settle Hcart.
  rewrite cart_total_price_run by done. settle Hcart.
  rewrite place_cart_items_run by done.
  f_equal. apply DB_eq; db_fields; try done.
  by apply add_lines_new.
Qed.

(** C2: when some line of the cart asks for more than the stock of its
    product, [checkout] fails with [InsufficientStock] naming the product of
    such a line (the first one in the cart) and writes nothing: no order, no
    order line, every stock and every cart line as before. *)
Theorem checkout_insufficient_stock db user method post u items item p :
  users db !! user = Some u →
  carts db !! user = Some items →
  Forall (λ i, is_Some (products db !! CartItem.product i)) items →
  item ∈ items →
  products db !! CartItem.product item = Some p →
  CartItem.quantity item > Product.stock p →
  ∃ item' p',
    item' ∈ items
    ∧ products db !! CartItem.product item' = Some p'
    ∧ CartItem.quantity item' > Product.stock p'
    ∧ checkout user method post db
      = (Err (InsufficientStock (Product.name p')), db).
Proof.
  intros Hu Hcart Hfk Hin Hp Hq.
  destruct (first_short_cart_line (products db) items Hfk)
    as (pre & item' & rest & p' & -> & Hpre & Hp' & Hq').
  { apply Exists_exists. exists item. split; [done|].
    intros (p0 & Hp0 & Hq0). rewrite Hp in Hp0. injection Hp0 as <-. lia. }
  exists item', p'. split_and!; try done.
  { apply elem_of_app. right. by left. }
  unfold checkout. run_m. rewrite Hu. settle Hcart.
  destruct (decide (pre ++ item' :: rest = [])) as [Hnil|_].
  { by destruct pre. }
  by rewrite (check_cart_stock_short pre item' rest db p').
Qed.

Lemma checkout_insufficient_stock_witness :
  ∃ item' p',
    item' ∈ [CartItem.mk 1 12 5]
    ∧ products shop !! CartItem.product item' = Some p'
    ∧ CartItem.quantity item' > Product.stock p'
    ∧ checkout 1 POST
        (Build_CheckoutPost None None None None None None None None None None)
        shop
      = (Err (InsufficientStock (Product.name p')), shop).
Proof.
  apply (checkout_insufficient_stock shop 1 POST _ customer
           [CartItem.mk 1 12 5] (CartItem.mk 1 12 5) fabric);
    [reflexivity|reflexivity| |left|reflexivity|simpl; lia].
  constructor; [|constructor]. by exists fabric.
Defined.

(** C3: a [POST] to [checkout] with a cart that is not empty and whose every
    line is at most the stock of its product answers with the identifier of
    a new order.  That order has status [new] and one line per cart line, in
    the same order, with the product, the quantity and the price the product
    has at that moment; the stock of the product of each cart line is lower
    by the quantity of the line, every other product is as before, and the
    cart is empty. *)
Theorem checkout_places_order db user post u items :
  users db !! user = Some u →
  carts db !! user = Some items →
  items ≠ [] →
  NoDup (CartItem.product <$> items) →
  Forall (in_stock (products db)) items →
  orders db !! next_order_id db = None →
  ∃ order_id o db',
    checkout user POST post db
    = (Ok (redirect "order_detail" (Some order_id)), db')
    ∧ orders db !! order_id = None
    ∧ orders db' !! order_id = Some o
    ∧ Order.status o = "new"
    ∧ Order.user o = user
    ∧ Order.items o = order_line (products db) <$> items
    ∧ (∀ other, other ≠ order_id → orders db' !! other = orders db !! other)
    ∧ (∀ item p, item ∈ items →
         products db !! CartItem.product item = Some p →
         ∃ p', products db' !! CartItem.product item = Some p'
           ∧ Product.stock p' = Product.stock p - CartItem.quantity item
           ∧ Product.name p' = Product.name p
           ∧ Product.price p' = Product.price p)
    ∧ (∀ pid, pid ∉ CartItem.product <$> items →
         products db' !! pid = products db !! pid)
    ∧ carts db' !! user = Some [].
Proof.
  intros Hu Hcart Hne Hnd Hstock Hfresh.
  eexists _, _, _. split; [by eapply checkout_run|]. db_fields.
  split_and!.
  - done.
  - by rewrite lookup_insert_eq.
  - done.
  - done.
  - done.
  - intros other Hother. by rewrite lookup_insert_ne.
  - intros item p Hin Hp. rewrite lookup_stock_after, Hp. simpl.
    eexists. split; [done|]. simpl. by rewrite wanted_line.
  - intros pid Hnot. rewrite lookup_stock_after, wanted_absent by done.
    destruct (products db !! pid) as [p|]; [|done]. simpl.
    by rewrite Z.add_0_r, with_stock_same.
  - by rewrite lookup_insert_eq.
Qed.

Lemma checkout_places_order_witness :
  ∃ o db',
    checkout 1 POST
      (Build_CheckoutPost None None None None None None None None
         (Some "delivery") None)
      shop_small_cart
    = (Ok (redirect "order_detail" (Some 9)), db')
    ∧ orders db' !! 9 = Some o
    ∧ Order.status o = "new"
    ∧ Order.user o = 1
    ∧ Order.items o = [OrderItem.mk 12 2 4000]
    ∧ orders db' !! 8 = Some order8
    ∧ products db' !! 12 = Some (Product.mk "Fabric" 4000 1)
    ∧ products db' !! 10 = Some (Product.mk "Paper" 1000 1)
    ∧ carts db' !! 1 = Some [].
Proof.
  destruct (checkout_places_order shop_small_cart 1
              (Build_CheckoutPost None None None None None None None None
                 (Some "delivery") None)
              customer [CartItem.mk 1 12 2])
    as (order_id & o & db' & Hrun & _ & Ho & Hstatus & Howner & Hitems
        & Hothers & Hstock & Hrest & Hcart);
    [reflexivity|reflexivity|discriminate| | |reflexivity|].
  - refine (bool_decide_unpack _ _). vm_compute. exact I.
  - constructor; [|constructor]. exists fabric. split; [reflexivity|simpl; lia].
  - assert (order_id = 9) as ->.
    { assert ((checkout 1 POST
                 (Build_CheckoutPost None None None None None None None None
                    (Some "delivery") None) shop_small_cart).1
              = Ok (redirect "order_detail" (Some 9))) as Hid
        by (vm_compute; reflexivity).
      rewrite Hrun in Hid. simpl in Hid. by injection Hid. }
    exists o, db'. split_and!; try done.
    + by rewrite (Hothers 8).
    + destruct (Hstock (CartItem.mk 1 12 2) fabric) as (p' & Hp' & Hs & Hn & Hp);
        [by apply list_elem_of_singleton|reflexivity|].
      simpl in Hp'. rewrite Hp'. destruct p'. simpl in *. by subst.
    + rewrite (Hrest 10); [reflexivity|].
      refine (bool_decide_unpack _ _). vm_compute. exact I.
Defined.



(** * Properties of the order life cycle *)



Lemma with_items_same o : Order.with_items (Order.items o) o = o.
Proof. by destruct o. Qed.

(** [order.save()] of an order that is stored rewrites its row. *)
Lemma save_order_run db order_id stored o :
  orders db !! order_id = Some stored →
  Order.items o = Order.items stored →
  save_order order_id o db = (Ok tt, set_orders (insert order_id o) db).
Proof.
  intros Hstored Hitems. unfold save_order, modify. f_equal.
  apply DB_eq; db_fields; try done.
  apply map_eq. intros i. destruct (decide (order_id = i)) as [<-|Hne].
  - rewrite lookup_alter_eq, lookup_insert_eq, Hstored. simpl.
    by rewrite <- Hitems, with_items_same.
  - by rewrite lookup_alter_ne, lookup_insert_ne.
Qed.





(** ** The order page of the back office *)

Section AdminOrderPage.
Variables (db : DB) (admin : Z) (a : User.t) (order_id : Z) (o : Order.t).
Variable post : AdminOrderPost.
Hypothesis Ha : users db !! admin = Some a.
Hypothesis Hadm : is_admin a = true.
Hypothesis Ho : orders db !! order_id = Some o.



Section OutOfCancelled.
Variable new_status : string.
Hypothesis Hs : Order.status o = "cancelled".
Hypothesis Hpost : adm_status post = Some new_status.
Hypothesis Hnc : new_status ≠ "cancelled".
Hypothesis Hne : new_status ≠ EmptyString.
Hypothesis Hnd : distinct_lines o.




End OutOfCancelled.
End AdminOrderPage.





(** C5, at a cancelled order whose first line can be served and whose second
    line cannot: the administrator's change to [new] fails with
    [InsufficientStock] for the second product, the order stays [cancelled],
    and the unit of the first product that was deducted before the failure
    stays deducted. *)
Theorem restore_failure_keeps_deduction :
  ∃ db',
    admin_order_detail 2 7 POST to_new shop
    = (Err (InsufficientStock "Vinyl"), db')
    ∧ Order.status <$> orders db' !! 7 = Some "cancelled"
    ∧ Product.stock <$> products shop !! 10 = Some 1
    ∧ Product.stock <$> products db' !! 10 = Some 0
    ∧ db' ≠ shop.
Proof.
  eexists. split; [vm_compute; reflexivity|].
  split_and!; try (vm_compute; reflexivity).
  intros Heq. apply (f_equal (λ db, Product.stock <$> products db !! 10)) in Heq.
  vm_compute in Heq. discriminate.
Qed.

(** * The stock never goes below zero *)

Lemma cart_ok_nil next : cart_ok next [].
Proof. split; constructor. Qed.

Lemma cart_ok_later next next' items :
  next ≤ next' → cart_ok next items → cart_ok next' items.
Proof.
  intros Hle [H1 H2 H3 H4]. split; try done.
  eapply Forall_impl; [exact H2|]. simpl. intros. lia.
Qed.

(** A new line for a product the cart does not hold yet. *)
Lemma cart_ok_create next items product_id :
  cart_ok next items →
  find (λ x, CartItem.product x =? product_id) items = None →
  cart_ok (next + 1) (items ++ [CartItem.mk next product_id 1]).
Proof.
  intros [H1 H2 H3 H4] Hfind. split.
  - rewrite fmap_app. apply NoDup_app. split_and!; [done| |apply NoDup_singleton].
    intros i Hi Hnew. apply list_elem_of_singleton in Hnew. simpl in Hnew. subst.
    apply list_elem_of_fmap in Hi as (x & Hx & Hin).
    rewrite Forall_forall in H2. specialize (H2 x Hin). simpl in H2. lia.
  - apply Forall_app. split; [|repeat constructor; simpl; lia].
    eapply Forall_impl; [exact H2|]. simpl. intros. lia.
  - rewrite fmap_app. apply NoDup_app. split_and!; [done| |apply NoDup_singleton].
    intros pid Hpid Hnew. apply list_elem_of_singleton in Hnew. simpl in Hnew. subst.
    apply list_elem_of_fmap in Hpid as (x & Hx & Hin).
    apply list_elem_of_In in Hin. apply (find_none _ _ Hfind x) in Hin.
    apply Z.eqb_neq in Hin. congruence.
  - apply Forall_app. split; [done|]. repeat constructor. simpl. lia.
Qed.

(** Saving one of the lines with another quantity. *)
Lemma cart_ok_save next items ci q :
  cart_ok next items →
  ci ∈ items →
  0 ≤ q →
  cart_ok next
    (map (λ x, if CartItem.id x =? CartItem.id (CartItem.with_quantity q ci)
               then CartItem.with_quantity q ci else x) items).
Proof.
  intros [H1 H2 H3 H4] Hin Hq.
  apply list_elem_of_split in Hin as (pre & post & ->).
  rewrite (save_line pre ci post (CartItem.with_quantity q ci)); [|done|].
  - rewrite !fmap_app, !fmap_cons in *.
    apply Forall_app in H2 as [? Hc]. apply Forall_cons in Hc as [? ?].
    apply Forall_app in H4 as [? Hc]. apply Forall_cons in Hc as [? ?].
    split; rewrite ?fmap_app, ?fmap_cons; try done.
    + apply Forall_app. split; [done|]. by constructor.
    + apply Forall_app. split; [done|]. by constructor.
  - rewrite fmap_app, fmap_cons in H1.
    apply NoDup_app in H1 as (_ & Hdisj & Hpost).
    apply NoDup_cons in Hpost as [Hpost _].
    rewrite fmap_app. intros [Hpre|Hpo]%elem_of_app; [|done].
    apply (Hdisj _ Hpre). by left.
Qed.

(** Deleting lines. *)
Lemma cart_ok_filter next items (P : CartItem.t → Prop) `{∀ x, Decision (P x)} :
  cart_ok next items → cart_ok next (filter P items).
Proof.
  intros [H1 H2 H3 H4].
  pose proof (sublist_filter P items) as Hsub. split.
  - eapply sublist_NoDup; [exact H1|]. by apply fmap_sublist.
  - rewrite Forall_forall in H2 |- *.
    intros x [_ Hx]%list_elem_of_filter. by apply H2.
  - eapply sublist_NoDup; [exact H3|]. by apply fmap_sublist.
  - rewrite Forall_forall in H4 |- *.
    intros x [_ Hx]%list_elem_of_filter. by apply H4.
Qed.

Lemma consistent_intro db :
  carts_inv (next_cart_item_id db) (carts db) →
  orders_inv (orders db) →
  stocks_nonneg db →
  consistent db.
Proof. intros Hcs Hos Hst. split; [split|]; assumption. Qed.

Lemma consistent_elim db :
  consistent db →
  carts_inv (next_cart_item_id db) (carts db)
  ∧ orders_inv (orders db) ∧ stocks_nonneg db.
Proof. by intros [[? ?] ?]. Qed.

Lemma carts_inv_insert next next' cs user items :
  carts_inv next cs → next ≤ next' → cart_ok next' items →
  carts_inv next' (<[user := items]> cs).
Proof.
  intros Hcs Hle Hitems u l. rewrite lookup_insert.
  case_decide; [by intros [= <-]|].
  intros Hl. eapply cart_ok_later; [exact Hle|by eapply Hcs].
Qed.

Lemma carts_inv_alter next cs user f :
  carts_inv next cs →
  (∀ items, cs !! user = Some items → cart_ok next (f items)) →
  carts_inv next (alter f user cs).
Proof.
  intros Hcs Hf u l. rewrite lookup_alter. case_decide; [|apply Hcs].
  subst. destruct (cs !! u) as [items|] eqn:E; [|done].
  intros [= <-]. by apply Hf.
Qed.

Lemma orders_inv_alter os order_id f :
  orders_inv os →
  (∀ o, Order.items (f o) = Order.items o) →
  orders_inv (alter f order_id os).
Proof.
  intros Hos Hf i o. rewrite lookup_alter. case_decide; [|apply Hos].
  subst. destruct (os !! i) as [o'|] eqn:E; [|done].
  intros [= <-]. rewrite Hf. by eapply Hos.
Qed.

Lemma orders_inv_delete os order_id : orders_inv os → orders_inv (delete order_id os).
Proof.
  intros Hos i o Hi. apply lookup_delete_Some in Hi as [_ Hi]. by eapply Hos.
Qed.

Lemma find_elem_of {A} (f : A → bool) l x : find f l = Some x → x ∈ l.
Proof. intros H. apply list_elem_of_In. by apply find_some in H as [? _]. Qed.

Lemma add_to_cart_keeps db user product_id :
  consistent db → consistent (add_to_cart user product_id db).2.
Proof.
  intros Hdb. destruct (consistent_elim _ Hdb) as (Hcs & Hos & Hst).
  unfold add_to_cart. run_m.
  destruct (users db !! user); [|done].
  destruct (products db !! product_id) as [p|]; [|done].
  destruct (decide (Product.stock p ≤ 0)); [done|].
  set (items := default [] (carts db !! user)).
  assert (cart_ok (next_cart_item_id db) items) as Hitems.
  { unfold items. destruct (carts db !! user) eqn:E; [by eapply Hcs|].
    apply cart_ok_nil. }
  assert (default [] (carts (match carts db !! user with
                             | Some _ => db
                             | None => set_carts (insert user []) db
                             end) !! user) = items) as Hsame.
  { unfold items. destruct (carts db !! user) eqn:E; db_fields.
    - by rewrite E.
    - by rewrite lookup_insert_eq. }
  destruct (carts db !! user) as [l|] eqn:Hcart; db_fields.
  - rewrite Hcart. cbn [from_option id]. subst items. cbn [from_option id] in *.
    destruct (find _ l) as [ci|] eqn:Hfind; cbn [negb CartItem.quantity].
    + destruct (decide (CartItem.quantity ci + 1 > Product.stock p)); [done|].
      apply consistent_intro; db_fields; try done.
      apply carts_inv_alter; [done|]. intros l' Hl'. simplify_eq.
      apply (cart_ok_save _ _ ci (CartItem.quantity ci + 1)); [done| |].
      * by eapply find_elem_of.
      * destruct Hitems as [_ _ _ Hq]. rewrite Forall_forall in Hq.
        specialize (Hq ci (find_elem_of _ _ _ Hfind)). simpl in Hq. lia.
    + destruct (decide (1 > Product.stock p)); [lia|].
      apply consistent_intro; db_fields; try done.
      apply carts_inv_insert with (next := next_cart_item_id db); [done|lia|].
      by apply cart_ok_create.
  - rewrite lookup_insert_eq. cbn [from_option id find negb CartItem.quantity].
    destruct (decide (1 > Product.stock p)); [lia|].
    apply consistent_intro; db_fields; try done.
    apply carts_inv_insert with (next := next_cart_item_id db); [|lia|].
    + apply carts_inv_insert with (next := next_cart_item_id db);
        [done|lia|apply cart_ok_nil].
    + by apply (cart_ok_create _ []).
Qed.

Lemma remove_from_cart_keeps db user item_id :
  consistent db → consistent (remove_from_cart user item_id db).2.
Proof.
  intros Hdb. destruct (consistent_elim _ Hdb) as (Hcs & Hos & Hst).
  unfold remove_from_cart. run_m.
  destruct (users db !! user); [|done].
  destruct (find _ _) as [ci|]; [|done].
  apply consistent_intro; db_fields; try done.
  apply carts_inv_alter; [done|]. intros l Hl.
  apply cart_ok_filter. by eapply Hcs.
Qed.

Lemma update_cart_item_keeps db user item_id posted :
  consistent db → consistent (update_cart_item user item_id posted db).2.
Proof.
  intros Hdb. destruct (consistent_elim _ Hdb) as (Hcs & Hos & Hst).
  unfold update_cart_item. run_m.
  destruct (users db !! user); [|done].
  destruct (find _ _) as [ci|] eqn:Hfind; [|done].
  destruct (products db !! CartItem.product ci) as [p|]; [|done].
  destruct (decide (default 1 posted > Product.stock p)); [done|].
  destruct (decide (default 1 posted > 0)).
  - apply consistent_intro; db_fields; try done.
    apply carts_inv_alter; [done|]. intros l Hl.
    rewrite Hl in Hfind. cbn [from_option id] in Hfind.
    apply (cart_ok_save _ _ ci (default 1 posted)); [by eapply Hcs| |lia].
    by eapply find_elem_of.
  - apply consistent_intro; db_fields; try done.
    apply carts_inv_alter; [done|]. intros l Hl.
    apply cart_ok_filter. by eapply Hcs.
Qed.

Lemma restocked_refl db : restocked db db.
Proof. by split. Qed.

Lemma restocked_save db db1 pid p :
  restocked db db1 →
  (stocks_nonneg db1 → 0 ≤ Product.stock p) →
  restocked db (set_products (insert pid p) db1).
Proof.
  intros [? ? ? ? ? Hst] Hp. split; db_fields; try done.
  intros Hdb pid' p'. db_fields. rewrite lookup_insert.
  case_decide; [intros [= <-]; by apply Hp, Hst|]. by apply Hst.
Qed.

Lemma restocked_consistent db db' :
  restocked db db' → consistent db → consistent db'.
Proof.
  intros [Hu Hc Ho Hci Hoi Hst] Hdb.
  destruct (consistent_elim _ Hdb) as (Hcs & Hos & Hs).
  apply consistent_intro; [by rewrite Hci, Hc|by rewrite Ho|by apply Hst].
Qed.

(** However it ends, [return_to_stock] only raises stocks. *)
Lemma return_to_stock_keeps items db :
  Forall (λ i, 0 ≤ OrderItem.quantity i) items →
  restocked db (return_to_stock items db).2.
Proof.
  intros Hq. unfold return_to_stock.
  apply (for_each_preserves (restocked db)); [|apply restocked_refl].
  intros x db1 Hx Hdb1. run_m.
  destruct (products db1 !! OrderItem.product x) as [p|] eqn:Hp; [|done].
  db_fields. apply restocked_save; [done|]. intros Hst. simpl.
  rewrite Forall_forall in Hq. specialize (Hq x Hx). simpl in Hq.
  specialize (Hst _ _ Hp). lia.
Qed.

(** However it ends, [take_from_stock] never takes more than there is. *)
Lemma take_from_stock_keeps items db :
  restocked db (take_from_stock items db).2.
Proof.
  unfold take_from_stock.
  apply (for_each_preserves (restocked db)); [|apply restocked_refl].
  intros x db1 Hx Hdb1. run_m.
  destruct (products db1 !! OrderItem.product x) as [p|] eqn:Hp; [|done].
  destruct (decide (OrderItem.quantity x > Product.stock p)); [done|].
  db_fields. apply restocked_save; [done|]. intros _. simpl. lia.
Qed.

(** Under [unique_together], lines that the stock can serve one by one can be
    served together. *)
Lemma wanted_le_stock ps items pid p :
  NoDup (CartItem.product <$> items) →
  Forall (in_stock ps) items →
  ps !! pid = Some p →
  0 ≤ Product.stock p →
  wanted pid items ≤ Product.stock p.
Proof.
  intros Hnd Hall Hp Hs.
  destruct (decide (pid ∈ CartItem.product <$> items)) as [Hin|Hout].
  - apply list_elem_of_fmap in Hin as (item & -> & Hin).
    rewrite wanted_line by done.
    rewrite Forall_forall in Hall. destruct (Hall item Hin) as (p' & Hp' & Hq).
    rewrite Hp in Hp'. by injection Hp' as <-.
  - rewrite wanted_absent by done. lia.
Qed.

(** [checkout] either writes nothing, or it is a [POST] for a cart that is
    not empty and can be served. *)
Lemma checkout_cases db user method post :
  (checkout user method post db).2 = db
  ∨ ∃ u items,
      method = POST
      ∧ users db !! user = Some u
      ∧ carts db !! user = Some items
      ∧ items ≠ []
      ∧ Forall (in_stock (products db)) items.
Proof.
  destruct (users db !! user) as [u|] eqn:Hu; last first.
  { left. unfold checkout. run_m. by rewrite Hu. }
  destruct (carts db !! user) as [items|] eqn:Hcart; last first.
  { left. unfold checkout. run_m. by rewrite Hu, Hcart. }
  destruct (decide (items = [])) as [->|Hne].
  { left. unfold checkout. run_m. rewrite Hu. by settle Hcart. }
  destruct (check_cart_stock items db) as [[[]|e] db1] eqn:Hcheck.
  - destruct method.
    + left. unfold checkout. run_m. rewrite Hu. settle Hcart.
      destruct (decide (items = [])); [done|].
      pose proof (check_cart_stock_reads items db) as Hsame.
      rewrite Hcheck in *. by db_fields.
    + right. exists u, items. split_and!; try done.
      by eapply check_cart_stock_passed.
  - left. unfold checkout. run_m. rewrite Hu. settle Hcart.
    destruct (decide (items = [])); [done|].
    pose proof (check_cart_stock_reads items db) as Hsame.
    rewrite Hcheck in *. by db_fields.
Qed.

Lemma checkout_keeps db user method post :
  consistent db → consistent (checkout user method post db).2.
Proof.
  intros Hdb. destruct (consistent_elim _ Hdb) as (Hcs & Hos & Hst).
  destruct (checkout_cases db user method post)
    as [->|(u & items & -> & Hu & Hcart & Hne & Hall)]; [done|].
  rewrite (checkout_run db user post u items) by done.
  destruct (Hcs _ _ Hcart) as [_ _ Hnd Hq].
  apply consistent_intro; db_fields.
  - apply carts_inv_insert with (next := next_cart_item_id db);
      [done|lia|apply cart_ok_nil].
  - intros i o. rewrite lookup_insert. case_decide; [|apply Hos].
    intros [= <-]. cbn [Order.with_items Order.items].
    apply Forall_fmap. eapply Forall_impl; [exact Hq|]. done.
  - intros pid p'. db_fields. rewrite lookup_stock_after.
    destruct (products db !! pid) as [p|] eqn:Hp; [|done].
    intros [= <-]. simpl.
    pose proof (wanted_le_stock _ _ _ _ Hnd Hall Hp (Hst _ _ Hp)). lia.
Qed.

Lemma cancel_order_keeps db user order_id :
  consistent db → consistent (cancel_order user order_id db).2.
Proof.
  intros Hdb. destruct (consistent_elim _ Hdb) as (Hcs & Hos & Hst).
  unfold cancel_order. run_m.
  destruct (users db !! user); [|done].
  destruct (orders db !! order_id) as [o|] eqn:Ho; [|done].
  destruct (decide (Order.user o = user)); [|done].
  destruct (decide (Order.status o = "new")); [|done].
  pose proof (return_to_stock_keeps (Order.items o) db (Hos _ _ Ho)) as Hkept.
  apply restocked_consistent in Hkept as Hdb1; [|done].
  destruct (return_to_stock (Order.items o) db) as [[[]|err] db1]; [|done].
  db_fields. destruct (consistent_elim _ Hdb1) as (Hcs1 & Hos1 & Hst1).
  apply consistent_intro; db_fields; try done.
  by apply orders_inv_alter.
Qed.

Lemma admin_order_detail_keeps db user order_id method post :
  consistent db → consistent (admin_order_detail user order_id method post db).2.
Proof.
  intros Hdb. destruct (consistent_elim _ Hdb) as (Hcs & Hos & Hst).
  unfold admin_order_detail. run_m.
  destruct (users db !! user) as [u|]; [|done].
  destruct (is_admin u); [|done].
  destruct (orders db !! order_id) as [o|] eqn:Ho; [|done].
  destruct method; [done|].
  assert (∀ o' db1, consistent db1 →
            consistent (set_orders
              (alter (λ stored, Order.with_items (Order.items stored)
                        (admin_fields post (users db1) o')) order_id) db1))
    as Hsave.
  { intros o' db1 Hdb1. destruct (consistent_elim _ Hdb1) as (Hcs1 & Hos1 & Hst1).
    apply consistent_intro; db_fields; try done. by apply orders_inv_alter. }
  destruct (truthy (adm_status post)) as [new_status|]; [|by apply Hsave].
  destruct (decide (new_status ≠ Order.status o)); [|by apply Hsave].
  destruct (decide (new_status = "cancelled" ∧ Order.status o ≠ "cancelled")).
  { pose proof (return_to_stock_keeps (Order.items o) db (Hos _ _ Ho)) as Hkept.
    apply restocked_consistent in Hkept; [|done].
    destruct (return_to_stock (Order.items o) db) as [[[]|err] db1]; [|done].
    by apply Hsave. }
  destruct (decide (Order.status o = "cancelled" ∧ new_status ≠ "cancelled")).
  { pose proof (take_from_stock_keeps (Order.items o) db) as Hkept.
    apply restocked_consistent in Hkept; [|done].
    destruct (take_from_stock (Order.items o) db) as [[[]|err] db1]; [|done].
    by apply Hsave. }
  by apply Hsave.
Qed.

Lemma admin_order_delete_keeps db user order_id method :
  consistent db → consistent (admin_order_delete user order_id method db).2.
Proof.
  intros Hdb. destruct (consistent_elim _ Hdb) as (Hcs & Hos & Hst).
  unfold admin_order_delete. run_m.
  destruct (users db !! user) as [u|]; [|done].
  destruct (is_admin u); [|done].
  destruct (orders db !! order_id) as [o|] eqn:Ho; [|done].
  destruct method; [done|].
  assert (∀ db1, consistent db1 → consistent (set_orders (delete order_id) db1))
    as Hdelete.
  { intros db1 Hdb1. destruct (consistent_elim _ Hdb1) as (Hcs1 & Hos1 & Hst1).
    apply consistent_intro; db_fields; try done. by apply orders_inv_delete. }
  destruct (decide (Order.status o ≠ "cancelled")); [|by apply Hdelete].
  pose proof (return_to_stock_keeps (Order.items o) db (Hos _ _ Ho)) as Hkept.
  apply restocked_consistent in Hkept; [|done].
  destruct (return_to_stock (Order.items o) db) as [[[]|err] db1]; [|done].
  by apply Hdelete.
Qed.

(** Every request keeps the database consistent. *)
Lemma run_op_keeps op db : consistent db → consistent (run_op op db).2.
Proof.
  destruct op; simpl.
  - apply add_to_cart_keeps.
  - apply remove_from_cart_keeps.
  - apply update_cart_item_keeps.
  - apply checkout_keeps.
  - apply cancel_order_keeps.
  - apply admin_order_detail_keeps.
  - apply admin_order_delete_keeps.
Qed.

Lemma run_ops_keeps ops db : consistent db → consistent (run_ops ops db).
Proof.
  revert db. induction ops as [|op ops IH]; intros db Hdb; [done|].
  simpl. by apply IH, run_op_keeps.
Qed.

(** C1: from a database that meets the constraints of its schema and in
    which no stock is negative, after every sequence of requests to the
    engine ([add_to_cart], [remove_from_cart], [update_cart_item],
    [checkout], [cancel_order], [admin_order_detail], [admin_order_delete]),
    served one after the other, the stock of every product is [>= 0].  Every
    prefix of a sequence is a sequence, so this holds after each request. *)
Theorem stock_never_negative db ops pid p :
  schema db →
  stocks_nonneg db →
  products (run_ops ops db) !! pid = Some p →
  0 ≤ Product.stock p.
Proof.
  intros Hschema Hstock Hp.
  assert (consistent (run_ops ops db)) as [_ Hst].
  { apply run_ops_keeps. by split. }
  by eapply Hst.
Qed.

Lemma shop_schema : schema shop.
Proof.
  split.
  - intros user items Hcart. simpl in Hcart.
    apply lookup_singleton_Some in Hcart as [<- <-].
    split.
    + apply NoDup_singleton.
    + repeat constructor; simpl; lia.
    + apply NoDup_singleton.
    + repeat constructor; simpl; lia.
  - intros order_id o Ho. simpl in Ho.
    apply lookup_insert_Some in Ho as [[<- <-]|[_ Ho]].
    + repeat constructor; simpl; lia.
    + apply lookup_singleton_Some in Ho as [<- <-].
      repeat constructor; simpl; lia.
Qed.

Lemma shop_stocks : stocks_nonneg shop.
Proof.
  intros pid p Hp. simpl in Hp.
  apply lookup_insert_Some in Hp as [[<- <-]|[_ Hp]]; [simpl; lia|].
  apply lookup_insert_Some in Hp as [[<- <-]|[_ Hp]]; [simpl; lia|].
  apply lookup_singleton_Some in Hp as [<- <-]. simpl. lia.
Qed.

Lemma stock_never_negative_witness :
  ∃ p, products (run_ops day shop) !! 10 = Some p ∧ 0 ≤ Product.stock p.
Proof.
  eexists. split; [vm_compute; reflexivity|].
  apply (stock_never_negative shop day 10);
    [apply shop_schema|apply shop_stocks|vm_compute; reflexivity].
Defined.

(** * The lines of the orders the engine makes *)

Lemma lines_kept_refl os : lines_kept os os.
Proof. intros i o Ho. eauto. Qed.

Lemma lines_kept_alter os order_id f :
  (∀ o, Order.items (f o) = Order.items o) →
  lines_kept os (alter f order_id os).
Proof.
  intros Hf i o'. rewrite lookup_alter. case_decide; [|eauto].
  subst. destruct (os !! i) as [o|]; [|done]. intros [= <-]. eauto.
Qed.

Lemma lines_kept_delete os order_id : lines_kept os (delete order_id os).
Proof. intros i o' Hi. apply lookup_delete_Some in Hi as [_ Hi]. eauto. Qed.

Lemma add_to_cart_orders db user product_id :
  orders (add_to_cart user product_id db).2 = orders db.
Proof.
  unfold add_to_cart. run_m.
  destruct (users db !! user); [|done].
  destruct (products db !! product_id) as [p|]; [|done].
  destruct (decide (Product.stock p ≤ 0)); [done|].
  destruct (carts db !! user) as [l|]; db_fields;
    destruct (find _ _) as [ci|]; cbn [negb]; repeat case_decide; done.
Qed.

Lemma remove_from_cart_orders db user item_id :
  orders (remove_from_cart user item_id db).2 = orders db.
Proof.
  unfold remove_from_cart. run_m.
  destruct (users db !! user); [|done].
  by destruct (find _ _) as [ci|].
Qed.

Lemma update_cart_item_orders db user item_id posted :
  orders (update_cart_item user item_id posted db).2 = orders db.
Proof.
  unfold update_cart_item. run_m.
  destruct (users db !! user); [|done].
  destruct (find _ _) as [ci|]; [|done].
  destruct (products db !! CartItem.product ci) as [p|]; [|done].
  repeat case_decide; done.
Qed.

Lemma return_to_stock_orders items db :
  orders (return_to_stock items db).2 = orders db.
Proof.
  unfold return_to_stock.
  apply (for_each_preserves (λ db1, orders db1 = orders db)); [|done].
  intros x db1 _ Hdb1. run_m.
  by destruct (products db1 !! OrderItem.product x).
Qed.

Lemma take_from_stock_orders items db :
  orders (take_from_stock items db).2 = orders db.
Proof.
  unfold take_from_stock.
  apply (for_each_preserves (λ db1, orders db1 = orders db)); [|done].
  intros x db1 _ Hdb1. run_m.
  destruct (products db1 !! OrderItem.product x) as [p|]; [|done].
  by case_decide.
Qed.

Lemma cancel_order_lines db user order_id :
  lines_kept (orders db) (orders (cancel_order user order_id db).2).
Proof.
  unfold cancel_order. run_m.
  destruct (users db !! user); [|apply lines_kept_refl].
  destruct (orders db !! order_id) as [o|] eqn:Ho; [|apply lines_kept_refl].
  destruct (decide (Order.user o = user)); [|apply lines_kept_refl].
  destruct (decide (Order.status o = "new")); [|apply lines_kept_refl].
  pose proof (return_to_stock_orders (Order.items o) db) as Hos.
  destruct (return_to_stock (Order.items o) db) as [[[]|err] db1]; db_fields;
    rewrite Hos; [|apply lines_kept_refl].
  by apply lines_kept_alter.
Qed.

Lemma admin_order_detail_lines db user order_id method post :
  lines_kept (orders db)
    (orders (admin_order_detail user order_id method post db).2).
Proof.
  unfold admin_order_detail. run_m.
  destruct (users db !! user) as [u|]; [|apply lines_kept_refl].
  destruct (is_admin u); [|apply lines_kept_refl].
  destruct (orders db !! order_id) as [o|] eqn:Ho; [|apply lines_kept_refl].
  destruct method; [apply lines_kept_refl|].
  destruct (truthy (adm_status post)) as [new_status|];
    [|by apply lines_kept_alter].
  destruct (decide (new_status ≠ Order.status o)); [|by apply lines_kept_alter].
  destruct (decide (new_status = "cancelled" ∧ Order.status o ≠ "cancelled")).
  { pose proof (return_to_stock_orders (Order.items o) db) as Hos.
    destruct (return_to_stock (Order.items o) db) as [[[]|err] db1]; db_fields;
      rewrite Hos; [|apply lines_kept_refl].
    by apply lines_kept_alter. }
  destruct (decide (Order.status o = "cancelled" ∧ new_status ≠ "cancelled")).
  { pose proof (take_from_stock_orders (Order.items o) db) as Hos.
    destruct (take_from_stock (Order.items o) db) as [[[]|err] db1]; db_fields;
      rewrite Hos; [|apply lines_kept_refl].
    by apply lines_kept_alter. }
  by apply lines_kept_alter.
Qed.

Lemma admin_order_delete_lines db user order_id method :
  lines_kept (orders db) (orders (admin_order_delete user order_id method db).2).
Proof.
  unfold admin_order_delete. run_m.
  destruct (users db !! user) as [u|]; [|apply lines_kept_refl].
  destruct (is_admin u); [|apply lines_kept_refl].
  destruct (orders db !! order_id) as [o|] eqn:Ho; [|apply lines_kept_refl].
  destruct method; [apply lines_kept_refl|].
  destruct (decide (Order.status o ≠ "cancelled")); [|apply lines_kept_delete].
  pose proof (return_to_stock_orders (Order.items o) db) as Hos.
  destruct (return_to_stock (Order.items o) db) as [[[]|err] db1]; db_fields;
    rewrite Hos; [|apply lines_kept_refl].
  apply lines_kept_delete.
Qed.

Lemma order_line_products ps (items : list CartItem.t) :
  OrderItem.product <$> (order_line ps <$> items) = CartItem.product <$> items.
Proof. rewrite <- list_fmap_compose. by apply list_fmap_ext. Qed.

(** Every request leaves the stored orders with distinct lines: the only
    lines ever written are those [checkout] copies from a cart, where
    [unique_together] holds. *)
Lemma run_op_distinct_lines op db :
  consistent db →
  (∀ order_id o, orders db !! order_id = Some o → distinct_lines o) →
  ∀ order_id o, orders (run_op op db).2 !! order_id = Some o → distinct_lines o.
Proof.
  intros Hdb Hdistinct.
  assert (∀ os', lines_kept (orders db) os' →
            ∀ order_id o, os' !! order_id = Some o → distinct_lines o) as Hkept.
  { intros os' Hos' i o' Ho'. destruct (Hos' _ _ Ho') as (o & Ho & Heq).
    unfold distinct_lines. rewrite Heq. by eapply Hdistinct. }
  destruct op; simpl.
  - by rewrite add_to_cart_orders.
  - by rewrite remove_from_cart_orders.
  - by rewrite update_cart_item_orders.
  - destruct (checkout_cases db user method post)
      as [->|(u & items & -> & Hu & Hcart & Hne & Hall)]; [done|].
    rewrite (checkout_run db user post u items) by done. db_fields.
    intros i o. rewrite lookup_insert. case_decide; [|by apply Hdistinct].
    intros [= <-]. unfold distinct_lines.
    cbn [Order.with_items Order.items]. rewrite order_line_products.
    destruct (consistent_elim _ Hdb) as (Hcs & _ & _).
    by destruct (Hcs _ _ Hcart).
  - apply Hkept, cancel_order_lines.
  - apply Hkept, admin_order_detail_lines.
  - apply Hkept, admin_order_delete_lines.
Qed.

(** X21: no order the engine holds has two lines for the same product: if
    that is so at the start (and the database is consistent), it is so after
    every sequence of requests, since [checkout] copies the lines of a cart,
    where [unique_together] holds, and no other view writes a line. *)
Lemma run_ops_distinct_lines ops db :
  consistent db →
  (∀ order_id o, orders db !! order_id = Some o → distinct_lines o) →
  ∀ order_id o, orders (run_ops ops db) !! order_id = Some o → distinct_lines o.
Proof.
  revert db. induction ops as [|op ops IH]; intros db Hdb Hdistinct; [done|].
  simpl. apply IH; [by apply run_op_keeps|by apply run_op_distinct_lines].
Qed.

(** * Further properties of the store *)

(** ** Requests that are turned away *)

(** X1: a request to [checkout] that fails, for whatever reason, has written
    nothing: the stock check comes before the first write and nothing after
    it can fail. *)
Lemma checkout_failure_writes_nothing db user method post e db' :
  checkout user method post db = (Err e, db') → db' = db.
Proof.
  intros Hrun.
  destruct (checkout_cases db user method post)
    as [Hsame|(u & items & -> & Hu & Hcart & Hne & Hall)].
  - by rewrite Hrun in Hsame.
  - by rewrite (checkout_run db user post u items) in Hrun.
Qed.

Lemma checkout_failure_writes_nothing_witness :
  (checkout 1 POST
     (Build_CheckoutPost None None None None None None None None None None)
     shop).2 = shop.
Proof.
  apply (checkout_failure_writes_nothing shop 1 POST
           (Build_CheckoutPost None None None None None None None None None None)
           (InsufficientStock "Fabric")).
  vm_compute. reflexivity.
Defined.

(** X2: a request that is not a [POST] writes nothing in [checkout],
    [admin_order_detail], [admin_order_delete] and [admin_product_delete],
    whoever sends it and whatever the database holds. *)
Theorem get_writes_nothing db user :
  (∀ post, (checkout user GET post db).2 = db)
  ∧ (∀ order_id post, (admin_order_detail user order_id GET post db).2 = db)
  ∧ (∀ order_id, (admin_order_delete user order_id GET db).2 = db)
  ∧ (∀ product_id, (admin_product_delete user product_id GET db).2 = db).
Proof.
  split_and!.
  - intros post. by destruct (checkout_cases db user GET post)
      as [?|(u & items & ? & _)].
  - intros order_id post. unfold admin_order_detail. run_m.
    destruct (users db !! user) as [u|]; [|done].
    destruct (is_admin u); [|done].
    by destruct (orders db !! order_id).
  - intros order_id. unfold admin_order_delete. run_m.
    destruct (users db !! user) as [u|]; [|done].
    destruct (is_admin u); [|done].
    by destruct (orders db !! order_id).
  - intros product_id. unfold admin_product_delete. run_m.
    destruct (users db !! user) as [u|]; [|done].
    destruct (is_admin u); [|done].
    by destruct (products db !! product_id).
Qed.

(** X3: [checkout] of a user who has no cart answers [NotFound], and with a
    cart that has no line it answers [EmptyCart]; neither writes anything,
    for [GET] and [POST] alike. *)
Theorem checkout_without_lines db user method post u :
  users db !! user = Some u →
  (carts db !! user = None →
   checkout user method post db = (Err NotFound, db))
  ∧ (carts db !! user = Some [] →
     checkout user method post db = (Err EmptyCart, db)).
Proof.
  intros Hu. split; intros Hcart; unfold checkout; run_m; rewrite Hu;
    by settle Hcart.
Qed.

Lemma checkout_without_lines_witness :
  checkout 2 POST
    (Build_CheckoutPost None None None None None None None None None None) shop
  = (Err NotFound, shop)
  ∧ checkout 1 POST
      (Build_CheckoutPost None None None None None None None None None None)
      (set_carts (insert 1 []) shop)
    = (Err EmptyCart, set_carts (insert 1 []) shop).
Proof.
  split.
  - apply (checkout_without_lines shop 2 POST _ manager); reflexivity.
  - apply (checkout_without_lines (set_carts (insert 1 []) shop) 1 POST _ customer);
      reflexivity.
Defined.

(** X4: a request by a user who is not stored (nobody is logged in) is
    answered [LoginRequired] by every view of the engine and writes
    nothing. *)
Theorem anonymous_is_turned_away db op :
  users db !! op_user op = None →
  run_op op db = (Err LoginRequired, db).
Proof.
  intros Hu. destruct op; simpl in *;
    [unfold add_to_cart|unfold remove_from_cart|unfold update_cart_item
    |unfold checkout|unfold cancel_order|unfold admin_order_detail
    |unfold admin_order_delete]; run_m; by rewrite Hu.
Qed.

Lemma anonymous_is_turned_away_witness :
  run_op (AdminOrderDelete 5 8 POST) shop = (Err LoginRequired, shop).
Proof. apply anonymous_is_turned_away. reflexivity. Defined.

(** X5: a stored user who is neither of role [admin] nor a superuser is
    answered [LoginRequired] by [admin_order_detail], [admin_order_delete]
    and [admin_product_delete], for every method and form, and nothing is
    written. *)
Theorem customer_is_no_admin db user u :
  users db !! user = Some u →
  is_admin u = false →
  (∀ order_id method post,
     admin_order_detail user order_id method post db = (Err LoginRequired, db))
  ∧ (∀ order_id method,
       admin_order_delete user order_id method db = (Err LoginRequired, db))
  ∧ (∀ product_id method,
       admin_product_delete user product_id method db = (Err LoginRequired, db)).
Proof.
  intros Hu Hadm. split_and!; intros;
    [unfold admin_order_detail|unfold admin_order_delete
    |unfold admin_product_delete]; run_m; by rewrite Hu, Hadm.
Qed.

Lemma customer_is_no_admin_witness :
  admin_order_detail 1 8 POST to_cancelled shop = (Err LoginRequired, shop)
  ∧ admin_order_delete 1 8 POST shop = (Err LoginRequired, shop)
  ∧ admin_product_delete 1 10 POST shop = (Err LoginRequired, shop).
Proof.
  destruct (customer_is_no_admin shop 1 customer eq_refl eq_refl)
    as (H1 & H2 & H3).
  split_and!; [apply H1|apply H2|apply H3].
Defined.

(** X6: [cancel_order] of an order that does not exist, or that belongs to
    another user, answers [NotFound] and writes nothing, whatever the status
    of the order. *)
Theorem cancel_order_of_another_user db user order_id u :
  users db !! user = Some u →
  (orders db !! order_id = None
   ∨ ∃ o, orders db !! order_id = Some o ∧ Order.user o ≠ user) →
  cancel_order user order_id db = (Err NotFound, db).
Proof.
  intros Hu [Ho|(o & Ho & Howner)]; unfold cancel_order; run_m;
    rewrite Hu, Ho; [done|].
  by destruct (decide (Order.user o = user)).
Qed.

Lemma cancel_order_of_another_user_witness :
  cancel_order 2 8 shop = (Err NotFound, shop)
  ∧ cancel_order 1 99 shop = (Err NotFound, shop).
Proof.
  split.
  - apply (cancel_order_of_another_user shop 2 8 manager); [reflexivity|].
    right. exists order8. split; [reflexivity|discriminate].
  - apply (cancel_order_of_another_user shop 1 99 customer); [reflexivity|].
    left. reflexivity.
Defined.

(** ** The cart *)

Lemma find_by_id item_id pre ci post :
  CartItem.id ci = item_id →
  item_id ∉ CartItem.id <$> pre →
  find (λ x, CartItem.id x =? item_id) (pre ++ ci :: post) = Some ci.
Proof.
  intros Hci. induction pre as [|x pre IH]; intros Hnot; simpl.
  - by rewrite Hci, Z.eqb_refl.
  - rewrite fmap_cons, not_elem_of_cons in Hnot. destruct Hnot as [Hne Hnot].
    destruct (Z.eqb_spec (CartItem.id x) item_id); [done|by apply IH].
Qed.

Lemma find_no_id item_id (items : list CartItem.t) :
  item_id ∉ CartItem.id <$> items →
  find (λ x, CartItem.id x =? item_id) items = None.
Proof.
  induction items as [|x items IH]; intros Hnot; simpl; [done|].
  rewrite fmap_cons, not_elem_of_cons in Hnot. destruct Hnot as [Hne Hnot].
  destruct (Z.eqb_spec (CartItem.id x) item_id); [done|by apply IH].
Qed.

Lemma filter_other_ids (ci : CartItem.t) (l : list CartItem.t) :
  CartItem.id ci ∉ CartItem.id <$> l →
  filter (λ x, CartItem.id x ≠ CartItem.id ci) l = l.
Proof.
  induction l as [|x l IH]; intros Hnot; [done|].
  rewrite fmap_cons, not_elem_of_cons in Hnot. destruct Hnot as [Hne Hnot].
  rewrite filter_cons_True by done. by rewrite IH.
Qed.

(** Deleting a line removes the row with its primary key and no other. *)
Lemma delete_line pre ci post :
  CartItem.id ci ∉ CartItem.id <$> pre ++ post →
  filter (λ x, CartItem.id x ≠ CartItem.id ci) (pre ++ ci :: post) = pre ++ post.
Proof.
  intros Hnot. rewrite fmap_app, not_elem_of_app in Hnot.
  destruct Hnot as [Hpre Hpost].
  rewrite filter_app, filter_cons_False by (intros H; by apply H).
  by rewrite !filter_other_ids.
Qed.

Lemma alter_stored {A} (f : A → A) (k : Z) (x : A) (m : gmap Z A) :
  m !! k = Some x → alter f k m = <[k := f x]> m.
Proof.
  intros Hx. apply map_eq. intros i. destruct (decide (k = i)) as [<-|Hne].
  - by rewrite lookup_alter_eq, lookup_insert_eq, Hx.
  - by rewrite lookup_alter_ne, lookup_insert_ne.
Qed.

(** X7: [remove_from_cart] of a line of the caller's cart deletes that line
    and nothing else: the other lines of the cart keep their place, and the
    products, the orders and the other carts are as before. *)
Theorem remove_from_cart_own_line db user item_id u pre ci post :
  users db !! user = Some u →
  carts db !! user = Some (pre ++ ci :: post) →
  CartItem.id ci = item_id →
  item_id ∉ CartItem.id <$> pre ++ post →
  remove_from_cart user item_id db
  = (Ok (redirect "cart" None), set_carts (insert user (pre ++ post)) db).
Proof.
  intros Hu Hcart Hid Hnot. subst item_id.
  assert (CartItem.id ci ∉ CartItem.id <$> pre) as Hpre.
  { rewrite fmap_app, not_elem_of_app in Hnot. tauto. }
  unfold remove_from_cart. run_m. rewrite Hu, Hcart. cbn [from_option id].
  rewrite (find_by_id _ pre ci post eq_refl Hpre).
  f_equal. apply DB_eq; db_fields; try done.
  rewrite (alter_stored _ _ _ _ Hcart). by rewrite delete_line.
Qed.

Lemma remove_from_cart_own_line_witness :
  remove_from_cart 1 1 shop
  = (Ok (redirect "cart" None), set_carts (insert 1 []) shop).
Proof.
  apply (remove_from_cart_own_line shop 1 1 customer [] (CartItem.mk 1 12 5) []);
    [reflexivity|reflexivity|reflexivity|apply not_elem_of_nil].
Defined.

(** X8: [remove_from_cart] and [update_cart_item] look the line up among the
    lines of the caller's own cart: with the identifier of a line of another
    user's cart, or of no line at all, they answer [NotFound] and write
    nothing. *)
Theorem cart_line_of_another_user db user item_id u :
  users db !! user = Some u →
  item_id ∉ CartItem.id <$> default [] (carts db !! user) →
  remove_from_cart user item_id db = (Err NotFound, db)
  ∧ ∀ posted, update_cart_item user item_id posted db = (Err NotFound, db).
Proof.
  intros Hu Hnot. apply find_no_id in Hnot.
  split; [|intros posted]; [unfold remove_from_cart|unfold update_cart_item];
    run_m; by rewrite Hu, Hnot.
Qed.

Lemma cart_line_of_another_user_witness :
  remove_from_cart 2 1 shop = (Err NotFound, shop)
  ∧ ∀ posted, update_cart_item 2 1 posted shop = (Err NotFound, shop).
Proof.
  apply (cart_line_of_another_user shop 2 1 manager); [reflexivity|].
  apply not_elem_of_nil.
Defined.

(** X9: [update_cart_item] on a line of the caller's cart, with the posted
    quantity (1 when the field is absent): a quantity above the stock of the
    product is refused with [InsufficientStock] and nothing is written; a
    quantity from 1 up to the stock becomes the quantity of the line; a
    quantity of 0 or less deletes the line.  Products and orders are never
    touched. *)
Theorem update_cart_item_sets_or_deletes db user item_id posted u pre ci post p :
  users db !! user = Some u →
  carts db !! user = Some (pre ++ ci :: post) →
  CartItem.id ci = item_id →
  item_id ∉ CartItem.id <$> pre ++ post →
  products db !! CartItem.product ci = Some p →
  let quantity := default 1 posted in
  (quantity > Product.stock p →
   update_cart_item user item_id posted db
   = (Err (InsufficientStock (Product.name p)), db))
  ∧ (0 < quantity ≤ Product.stock p →
     update_cart_item user item_id posted db
     = (Ok (redirect "cart" None),
        set_carts
          (insert user (pre ++ CartItem.with_quantity quantity ci :: post)) db))
  ∧ (quantity ≤ 0 → quantity ≤ Product.stock p →
     update_cart_item user item_id posted db
     = (Ok (redirect "cart" None), set_carts (insert user (pre ++ post)) db)).
Proof.
  intros Hu Hcart Hid Hnot Hp quantity. subst item_id.
  assert (CartItem.id ci ∉ CartItem.id <$> pre) as Hpre.
  { rewrite fmap_app, not_elem_of_app in Hnot. tauto. }
  pose proof (find_by_id _ pre ci post eq_refl Hpre) as Hfind.
  split_and!; intros; unfold update_cart_item; run_m;
    rewrite Hu, Hcart; cbn [from_option id]; rewrite Hfind, Hp;
    fold quantity;
    (destruct (decide (quantity > Product.stock p)); [try done; lia|]);
    try lia.
  - destruct (decide (quantity > 0)); [|lia].
    f_equal. apply DB_eq; db_fields; try done.
    rewrite (alter_stored _ _ _ _ Hcart).
    by rewrite (save_line pre ci post (CartItem.with_quantity quantity ci)).
  - destruct (decide (quantity > 0)); [lia|].
    f_equal. apply DB_eq; db_fields; try done.
    rewrite (alter_stored _ _ _ _ Hcart). by rewrite delete_line.
Qed.

Lemma update_cart_item_sets_or_deletes_witness :
  update_cart_item 1 1 (Some 4) shop = (Err (InsufficientStock "Fabric"), shop)
  ∧ update_cart_item 1 1 None shop
    = (Ok (redirect "cart" None), set_carts (insert 1 [CartItem.mk 1 12 1]) shop)
  ∧ update_cart_item 1 1 (Some 0) shop
    = (Ok (redirect "cart" None), set_carts (insert 1 []) shop).
Proof.
  split_and!.
  - apply (update_cart_item_sets_or_deletes shop 1 1 (Some 4) customer []
             (CartItem.mk 1 12 5) [] fabric);
      [reflexivity|reflexivity|reflexivity|apply not_elem_of_nil|reflexivity
      |simpl; lia].
  - apply (update_cart_item_sets_or_deletes shop 1 1 None customer []
             (CartItem.mk 1 12 5) [] fabric);
      [reflexivity|reflexivity|reflexivity|apply not_elem_of_nil|reflexivity
      |simpl; lia].
  - apply (update_cart_item_sets_or_deletes shop 1 1 (Some 0) customer []
             (CartItem.mk 1 12 5) [] fabric);
      [reflexivity|reflexivity|reflexivity|apply not_elem_of_nil|reflexivity
      |simpl; lia|simpl; lia].
Defined.

Lemma total_items_from (a : Z) (items : list CartItem.t) :
  foldl (λ total item, total + CartItem.quantity item) a items
  = a + total_items items.
Proof.
  unfold total_items. revert a.
  induction items as [|x items IH]; intros a; simpl; [lia|].
  rewrite (IH (a + _)), (IH (0 + _)). lia.
Qed.

Lemma total_items_cons x items :
  total_items (x :: items) = CartItem.quantity x + total_items items.
Proof. unfold total_items at 1. simpl. rewrite total_items_from. lia. Qed.

Lemma total_items_app l1 l2 :
  total_items (l1 ++ l2) = total_items l1 + total_items l2.
Proof.
  induction l1 as [|x l1 IH]; [done|].
  rewrite <- app_comm_cons, !total_items_cons, IH. lia.
Qed.

(** X10: every successful [add_to_cart] raises [Cart.total_items] of the
    caller's cart by exactly one, whether it creates a line or increments
    one ([CartItem] primary keys being unique). *)
Theorem add_to_cart_adds_one db user product_id response db' :
  NoDup (CartItem.id <$> default [] (carts db !! user)) →
  add_to_cart user product_id db = (Ok response, db') →
  total_items (default [] (carts db' !! user))
  = total_items (default [] (carts db !! user)) + 1.
Proof.
  intros Hids. unfold add_to_cart. run_m.
  destruct (users db !! user); [|done].
  destruct (products db !! product_id) as [p|]; [|done].
  destruct (decide (Product.stock p ≤ 0)); [done|].
  destruct (carts db !! user) as [l|] eqn:Hcart; db_fields.
  - rewrite Hcart. cbn [from_option id] in *.
    destruct (find _ l) as [ci|] eqn:Hfind; cbn [negb CartItem.quantity].
    + destruct (decide (CartItem.quantity ci + 1 > Product.stock p)); [done|].
      intros [= _ <-]. db_fields. rewrite lookup_alter_eq, Hcart.
      cbn [fmap option_fmap option_map from_option id].
      apply find_elem_of, list_elem_of_split in Hfind as (pre & post & ->).
      assert (map (λ x, if CartItem.id x =? CartItem.id ci
                        then CartItem.with_quantity (CartItem.quantity ci + 1) ci
                        else x) (pre ++ ci :: post)
              = pre ++ CartItem.with_quantity (CartItem.quantity ci + 1) ci :: post)
        as ->.
      { apply (save_line pre ci post
                 (CartItem.with_quantity (CartItem.quantity ci + 1) ci));
          [done|].
        rewrite fmap_app, fmap_cons in Hids.
        apply NoDup_app in Hids as (_ & Hdisj & Hpost).
        apply NoDup_cons in Hpost as [Hpost _].
        rewrite fmap_app. intros [Hpre|Hpo]%elem_of_app; [|done].
        apply (Hdisj _ Hpre). by left. }
      rewrite !total_items_app, !total_items_cons. simpl. lia.
    + destruct (decide (1 > Product.stock p)); [lia|].
      intros [= _ <-]. db_fields. rewrite lookup_insert_eq. simpl.
      rewrite total_items_app, total_items_cons.
      change (total_items []) with 0. simpl. lia.
  - rewrite lookup_insert_eq. cbn [from_option id find negb CartItem.quantity].
    destruct (decide (1 > Product.stock p)); [lia|].
    intros [= _ <-]. db_fields. by rewrite lookup_insert_eq.
Qed.

Lemma add_to_cart_adds_one_witness :
  total_items (default [] (carts (add_to_cart 1 12 shop_small_cart).2 !! 1)) = 3
  ∧ total_items (default [] (carts (add_to_cart 1 10 shop).2 !! 1)) = 6.
Proof.
  split.
  - apply (add_to_cart_adds_one shop_small_cart 1 12 (redirect "cart" None)).
    + apply NoDup_singleton.
    + vm_compute. reflexivity.
  - apply (add_to_cart_adds_one shop 1 10 (redirect "cart" None)).
    + apply NoDup_singleton.
    + vm_compute. reflexivity.
Defined.

(** ** Orders *)

(** The owner cancels an order that is [new]. *)
Lemma cancel_order_run db user order_id u o :
  users db !! user = Some u →
  orders db !! order_id = Some o →
  Order.user o = user →
  Order.status o = "new" →
  Forall (λ i, is_Some (products db !! OrderItem.product i)) (Order.items o) →
  cancel_order user order_id db
  = (Ok (redirect "order_detail" (Some order_id)),
     set_orders (insert order_id (Order.with_status "cancelled" o))
       (set_products (stock_after (λ pid, ordered pid (Order.items o))) db)).
Proof.
  intros Hu Ho Howner Hs Hfk. unfold cancel_order.
  erewrite bind_ok by (unfold login_required; run_m; by rewrite Hu).
  erewrite bind_ok; last first.
  { unfold get_own_order_or_404, get_order_or_404. run_m. rewrite Ho.
    by destruct (decide (Order.user o = user)). }
  destruct (decide (Order.status o = "new")); [|done].
  erewrite bind_ok by by apply return_to_stock_run.
  erewrite bind_ok by by eapply save_order_run.
  done.
Qed.









Lemma stock_after_keeps_products delta ps (items : list OrderItem.t) :
  Forall (λ i, is_Some (ps !! OrderItem.product i)) items →
  Forall (λ i, is_Some (stock_after delta ps !! OrderItem.product i)) items.
Proof.
  intros H. eapply Forall_impl; [exact H|]. intros i [p Hp]. simpl.
  rewrite lookup_stock_after, Hp. eauto.
Qed.



Lemma ordered_order_line ps (items : list CartItem.t) pid :
  ordered pid (order_line ps <$> items) = wanted pid items.
Proof.
  induction items as [|x items IH]; [done|].
  rewrite fmap_cons. simpl. by rewrite IH.
Qed.

(** X15: an order that is placed and cancelled right away leaves the stock
    as it was.  When the total of the cart (with the delivery fee, if any)
    fits the column of [Order.total_price], a successful [checkout] stores an
    order with such a total and lowers the stock of every product by what the
    cart asked for; the owner's [cancel_order] of the new order then
    succeeds, every product is stored as before the checkout, and the order
    is kept with status [cancelled]. *)
Theorem checkout_then_cancel db user post u items :
  users db !! user = Some u →
  carts db !! user = Some items →
  items ≠ [] →
  Forall (in_stock (products db)) items →
  fits_total_price
    (cart_value (products db) items
     + (if decide (post_delivery_method post = Some "delivery")
        then delivery_fee else 0)) →
  ∃ order_id o db1 db2,
    checkout user POST post db
    = (Ok (redirect "order_detail" (Some order_id)), db1)
    ∧ orders db1 !! order_id = Some o
    ∧ fits_total_price (Order.total_price o)
    ∧ (∀ pid p, products db !! pid = Some p →
         Product.stock <$> products db1 !! pid
         = Some (Product.stock p - wanted pid items))
    ∧ cancel_order user order_id db1
      = (Ok (redirect "order_detail" (Some order_id)), db2)
    ∧ (∀ pid p, products db !! pid = Some p →
         Product.stock <$> products db2 !! pid = Some (Product.stock p))
    ∧ products db2 = products db
    ∧ Order.status <$> orders db2 !! order_id = Some "cancelled".
Proof.
  intros Hu Hcart Hne Hall Hfits.
  assert (stock_after
            (λ pid, ordered pid (order_line (products db) <$> items))
            (stock_after (λ pid, - wanted pid items) (products db))
          = products db) as Hback.
  { apply map_eq. intros pid. rewrite !lookup_stock_after, ordered_order_line.
    destruct (products db !! pid) as [p|]; [|done]. simpl. f_equal.
    destruct p. unfold Product.with_stock. simpl. f_equal. lia. }
  eexists _, _, _, _. split; [by eapply checkout_run|]. db_fields.
  split; [by rewrite lookup_insert_eq|].
  split; [done|].
  split.
  { intros pid p Hp. by rewrite lookup_stock_after, Hp. }
  split.
  { eapply cancel_order_run; db_fields.
    - by rewrite lookup_insert_eq.
    - by rewrite lookup_insert_eq.
    - done.
    - done.
    - cbn [Order.items Order.with_items]. apply Forall_fmap.
      eapply Forall_impl; [exact Hall|]. intros i (p & Hp & _). simpl.
      rewrite lookup_stock_after, Hp. eauto. }
  db_fields. cbn [Order.items Order.with_items]. rewrite Hback.
  split_and!; [|done|by rewrite lookup_insert_eq].
  intros pid p Hp. by rewrite Hp.
Qed.

Lemma checkout_then_cancel_witness :
  ∃ db1 db2,
    checkout 1 POST
      (Build_CheckoutPost None None None None None None None None None None)
      shop_small_cart
    = (Ok (redirect "order_detail" (Some 9)), db1)
    ∧ Product.stock <$> products db1 !! 12 = Some 1
    ∧ cancel_order 1 9 db1 = (Ok (redirect "order_detail" (Some 9)), db2)
    ∧ Product.stock <$> products db2 !! 12 = Some 3
    ∧ Order.status <$> orders db2 !! 9 = Some "cancelled".
Proof.
  destruct (checkout_then_cancel shop_small_cart 1
              (Build_CheckoutPost None None None None None None None None None None)
              customer [CartItem.mk 1 12 2])
    as (order_id & o & db1 & db2 & Hrun & _ & _ & Hdown & Hcancel & Hup & _ & Hstatus);
    [reflexivity|reflexivity|discriminate| |vm_compute; reflexivity|].
  - constructor; [|constructor]. exists fabric. split; [reflexivity|simpl; lia].
  - assert (order_id = 9) as ->.
    { assert ((checkout 1 POST
                 (Build_CheckoutPost None None None None None None None None
                    None None) shop_small_cart).1
              = Ok (redirect "order_detail" (Some 9))) as Hid
        by (vm_compute; reflexivity).
      rewrite Hrun in Hid. simpl in Hid. by injection Hid. }
    exists db1, db2. split_and!; [done| |done| |done].
    + by rewrite (Hdown 12 fabric).
    + by rewrite (Hup 12 fabric).
Defined.



(** ** What the views leave alone *)

Lemma order_view_frame_refl db : order_view_frame db db.
Proof. by split. Qed.

Lemma order_view_frame_save db db1 pid p p' :
  order_view_frame db db1 →
  products db1 !! pid = Some p →
  order_view_frame db (set_products (insert pid p') db1).
Proof.
  intros [? ? ? ? Hcat] Hp. split; db_fields; try done.
  intros pid'. rewrite <- Hcat. destruct (decide (pid = pid')) as [<-|Hne].
  - rewrite lookup_insert_eq, Hp. by split.
  - by rewrite lookup_insert_ne.
Qed.

Lemma order_view_frame_orders db db1 f :
  order_view_frame db db1 → order_view_frame db (set_orders f db1).
Proof. intros [? ? ? ? ?]. by split. Qed.

Lemma return_to_stock_frame items db :
  order_view_frame db (return_to_stock items db).2.
Proof.
  unfold return_to_stock.
  apply (for_each_preserves (order_view_frame db)); [|apply order_view_frame_refl].
  intros x db1 _ Hdb1. run_m.
  destruct (products db1 !! OrderItem.product x) as [p|] eqn:Hp; [|done].
  db_fields. by eapply order_view_frame_save.
Qed.

Lemma take_from_stock_frame items db :
  order_view_frame db (take_from_stock items db).2.
Proof.
  unfold take_from_stock.
  apply (for_each_preserves (order_view_frame db)); [|apply order_view_frame_refl].
  intros x db1 _ Hdb1. run_m.
  destruct (products db1 !! OrderItem.product x) as [p|] eqn:Hp; [|done].
  destruct (decide (OrderItem.quantity x > Product.stock p)); [done|].
  db_fields. by eapply order_view_frame_save.
Qed.

Lemma cancel_order_frame db user order_id :
  order_view_frame db (cancel_order user order_id db).2.
Proof.
  unfold cancel_order. run_m.
  destruct (users db !! user); [|apply order_view_frame_refl].
  destruct (orders db !! order_id) as [o|]; [|apply order_view_frame_refl].
  destruct (decide (Order.user o = user)); [|apply order_view_frame_refl].
  destruct (decide (Order.status o = "new")); [|apply order_view_frame_refl].
  pose proof (return_to_stock_frame (Order.items o) db) as Hframe.
  destruct (return_to_stock (Order.items o) db) as [[[]|err] db1]; db_fields;
    [|done].
  by apply order_view_frame_orders.
Qed.

Lemma admin_order_detail_frame db user order_id method post :
  order_view_frame db (admin_order_detail user order_id method post db).2.
Proof.
  unfold admin_order_detail. run_m.
  destruct (users db !! user) as [u|]; [|apply order_view_frame_refl].
  destruct (is_admin u); [|apply order_view_frame_refl].
  destruct (orders db !! order_id) as [o|]; [|apply order_view_frame_refl].
  destruct method; [apply order_view_frame_refl|].
  destruct (truthy (adm_status post)) as [new_status|];
    [|apply order_view_frame_orders, order_view_frame_refl].
  destruct (decide (new_status ≠ Order.status o));
    [|apply order_view_frame_orders, order_view_frame_refl].
  destruct (decide (new_status = "cancelled" ∧ Order.status o ≠ "cancelled")).
  { pose proof (return_to_stock_frame (Order.items o) db) as Hframe.
    destruct (return_to_stock (Order.items o) db) as [[[]|err] db1]; db_fields;
      [|done].
    by apply order_view_frame_orders. }
  destruct (decide (Order.status o = "cancelled" ∧ new_status ≠ "cancelled")).
  { pose proof (take_from_stock_frame (Order.items o) db) as Hframe.
    destruct (take_from_stock (Order.items o) db) as [[[]|err] db1]; db_fields;
      [|done].
    by apply order_view_frame_orders. }
  apply order_view_frame_orders, order_view_frame_refl.
Qed.

Lemma admin_order_delete_frame db user order_id method :
  order_view_frame db (admin_order_delete user order_id method db).2.
Proof.
  unfold admin_order_delete. run_m.
  destruct (users db !! user) as [u|]; [|apply order_view_frame_refl].
  destruct (is_admin u); [|apply order_view_frame_refl].
  destruct (orders db !! order_id) as [o|]; [|apply order_view_frame_refl].
  destruct method; [apply order_view_frame_refl|].
  destruct (decide (Order.status o ≠ "cancelled"));
    [|apply order_view_frame_orders, order_view_frame_refl].
  pose proof (return_to_stock_frame (Order.items o) db) as Hframe.
  destruct (return_to_stock (Order.items o) db) as [[[]|err] db1]; db_fields;
    [|done].
  by apply order_view_frame_orders.
Qed.

Lemma add_to_cart_frame db user product_id :
  cart_view_frame db (add_to_cart user product_id db).2.
Proof.
  unfold add_to_cart. run_m.
  destruct (users db !! user); [|done].
  destruct (products db !! product_id) as [p|]; [|done].
  destruct (decide (Product.stock p ≤ 0)); [done|].
  destruct (carts db !! user) as [l|]; db_fields;
    destruct (find _ _) as [ci|]; cbn [negb]; repeat case_decide; done.
Qed.

Lemma remove_from_cart_frame db user item_id :
  cart_view_frame db (remove_from_cart user item_id db).2.
Proof.
  unfold remove_from_cart. run_m.
  destruct (users db !! user); [|done].
  by destruct (find _ _) as [ci|].
Qed.

Lemma update_cart_item_frame db user item_id posted :
  cart_view_frame db (update_cart_item user item_id posted db).2.
Proof.
  unfold update_cart_item. run_m.
  destruct (users db !! user); [|done].
  destruct (find _ _) as [ci|]; [|done].
  destruct (products db !! CartItem.product ci) as [p|]; [|done].
  repeat case_decide; done.
Qed.

(** ** What is kept of an order *)

Lemma same_purchase_refl o : same_purchase o o.
Proof. by split. Qed.

Lemma same_purchase_trans o1 o2 o3 :
  same_purchase o1 o2 → same_purchase o2 o3 → same_purchase o1 o3.
Proof. intros [] []. split; congruence. Qed.

(** The status and the fields of the back office are not part of the
    purchase. *)
Lemma same_purchase_status o s : same_purchase o (Order.with_status s o).
Proof. by split. Qed.

Lemma same_purchase_admin o o1 post us :
  same_purchase o o1 →
  same_purchase o
    (Order.with_items (Order.items o) (admin_fields post us o1)).
Proof.
  intros []. unfold admin_fields.
  destruct (adm_admin_notes post), (adm_assigned_to post) as [a|],
    (truthy (adm_priority post)); try destruct (us !! a); by split.
Qed.

Lemma purchases_kept_refl os : purchases_kept os os.
Proof. intros i o Ho. eauto using same_purchase_refl. Qed.

Lemma purchases_kept_alter os order_id f :
  (∀ o, os !! order_id = Some o → same_purchase o (f o)) →
  purchases_kept os (alter f order_id os).
Proof.
  intros Hf i o'. rewrite lookup_alter.
  case_decide; [|eauto using same_purchase_refl].
  subst. destruct (os !! i) as [o|] eqn:Ho; [|done]. intros [= <-]. eauto.
Qed.

Lemma purchases_kept_delete os order_id : purchases_kept os (delete order_id os).
Proof.
  intros i o' Hi. apply lookup_delete_Some in Hi as [_ Hi].
  eauto using same_purchase_refl.
Qed.

Lemma cancel_order_purchases db user order_id :
  purchases_kept (orders db) (orders (cancel_order user order_id db).2).
Proof.
  unfold cancel_order. run_m.
  destruct (users db !! user); [|apply purchases_kept_refl].
  destruct (orders db !! order_id) as [o|] eqn:Ho; [|apply purchases_kept_refl].
  destruct (decide (Order.user o = user)); [|apply purchases_kept_refl].
  destruct (decide (Order.status o = "new")); [|apply purchases_kept_refl].
  pose proof (return_to_stock_orders (Order.items o) db) as Hos.
  destruct (return_to_stock (Order.items o) db) as [[[]|err] db1]; db_fields;
    rewrite Hos; [|apply purchases_kept_refl].
  apply purchases_kept_alter. intros o0 Ho0. rewrite Ho in Ho0.
  injection Ho0 as <-. by split.
Qed.

Lemma admin_order_detail_purchases db user order_id method post :
  purchases_kept (orders db)
    (orders (admin_order_detail user order_id method post db).2).
Proof.
  unfold admin_order_detail. run_m.
  destruct (users db !! user) as [u|]; [|apply purchases_kept_refl].
  destruct (is_admin u); [|apply purchases_kept_refl].
  destruct (orders db !! order_id) as [o|] eqn:Ho; [|apply purchases_kept_refl].
  destruct method; [apply purchases_kept_refl|].
  assert (∀ o1 us, same_purchase o o1 →
            purchases_kept (orders db)
              (alter (λ stored, Order.with_items (Order.items stored)
                        (admin_fields post us o1))
                 order_id (orders db))) as Hsave.
  { intros o1 us Ho1. apply purchases_kept_alter. intros o0 Ho0.
    rewrite Ho in Ho0. injection Ho0 as <-. by apply same_purchase_admin. }
  pose proof (same_purchase_refl o) as Hsame.
  pose proof (same_purchase_status o) as Hstatus.
  destruct (truthy (adm_status post)) as [new_status|]; db_fields;
    [|by apply Hsave].
  destruct (decide (new_status ≠ Order.status o)); db_fields;
    [|by apply Hsave].
  destruct (decide (new_status = "cancelled" ∧ Order.status o ≠ "cancelled")).
  { pose proof (return_to_stock_orders (Order.items o) db) as Hos.
    destruct (return_to_stock (Order.items o) db) as [[[]|err] db1]; db_fields;
      rewrite Hos; [|apply purchases_kept_refl].
    by apply Hsave. }
  destruct (decide (Order.status o = "cancelled" ∧ new_status ≠ "cancelled")).
  { pose proof (take_from_stock_orders (Order.items o) db) as Hos.
    destruct (take_from_stock (Order.items o) db) as [[[]|err] db1]; db_fields;
      rewrite Hos; [|apply purchases_kept_refl].
    by apply Hsave. }
  by apply Hsave.
Qed.

Lemma admin_order_delete_purchases db user order_id method :
  purchases_kept (orders db)
    (orders (admin_order_delete user order_id method db).2).
Proof.
  unfold admin_order_delete. run_m.
  destruct (users db !! user) as [u|]; [|apply purchases_kept_refl].
  destruct (is_admin u); [|apply purchases_kept_refl].
  destruct (orders db !! order_id) as [o|] eqn:Ho; [|apply purchases_kept_refl].
  destruct method; [apply purchases_kept_refl|].
  destruct (decide (Order.status o ≠ "cancelled")); [|apply purchases_kept_delete].
  pose proof (return_to_stock_orders (Order.items o) db) as Hos.
  destruct (return_to_stock (Order.items o) db) as [[[]|err] db1]; db_fields;
    rewrite Hos; [|apply purchases_kept_refl].
  apply purchases_kept_delete.
Qed.

(** One request: the sequence of order identifiers only moves forward, every
    stored order stays behind it, and an order with an identifier already
    issued is the purchase it was. *)
Lemma run_op_orders_step op db :
  order_ids_issued db →
  order_ids_issued (run_op op db).2
  ∧ next_order_id db ≤ next_order_id (run_op op db).2
  ∧ ∀ order_id o', order_id < next_order_id db →
      orders (run_op op db).2 !! order_id = Some o' →
      ∃ o, orders db !! order_id = Some o ∧ same_purchase o o'.
Proof.
  intros Hissued.
  assert (∀ db', next_order_id db' = next_order_id db →
            purchases_kept (orders db) (orders db') →
            order_ids_issued db'
            ∧ next_order_id db ≤ next_order_id db'
            ∧ ∀ order_id o', order_id < next_order_id db →
                orders db' !! order_id = Some o' →
                ∃ o, orders db !! order_id = Some o ∧ same_purchase o o')
    as Hkept.
  { intros db' Hnext Hos. split_and!; [|lia|by eauto].
    intros i [o' Ho']. destruct (Hos _ _ Ho') as (o & Ho & _).
    rewrite Hnext. apply Hissued. eauto. }
  destruct op; simpl.
  - destruct (add_to_cart_frame db user product_id) as [_ _ Hos Hnext].
    apply Hkept; [done|]. rewrite Hos. apply purchases_kept_refl.
  - destruct (remove_from_cart_frame db user item_id) as [_ _ Hos Hnext].
    apply Hkept; [done|]. rewrite Hos. apply purchases_kept_refl.
  - destruct (update_cart_item_frame db user item_id posted) as [_ _ Hos Hnext].
    apply Hkept; [done|]. rewrite Hos. apply purchases_kept_refl.
  - destruct (checkout_cases db user method post)
      as [->|(u & items & -> & Hu & Hcart & Hne & Hall)].
    { apply Hkept; [done|apply purchases_kept_refl]. }
    rewrite (checkout_run db user post u items) by done. db_fields.
    split_and!; [|lia|].
    + intros i. db_fields. rewrite lookup_insert. case_decide; [lia|].
      intros Hi. apply Hissued in Hi. lia.
    + intros i o' Hi. rewrite lookup_insert_ne by lia.
      eauto using same_purchase_refl.
  - destruct (cancel_order_frame db user order_id) as [_ _ _ Hnext _].
    apply Hkept; [done|apply cancel_order_purchases].
  - destruct (admin_order_detail_frame db user order_id method post)
      as [_ _ _ Hnext _].
    apply Hkept; [done|apply admin_order_detail_purchases].
  - destruct (admin_order_delete_frame db user order_id method)
      as [_ _ _ Hnext _].
    apply Hkept; [done|apply admin_order_delete_purchases].
Qed.

Lemma run_ops_orders_step ops db :
  order_ids_issued db →
  order_ids_issued (run_ops ops db)
  ∧ next_order_id db ≤ next_order_id (run_ops ops db)
  ∧ ∀ order_id o', order_id < next_order_id db →
      orders (run_ops ops db) !! order_id = Some o' →
      ∃ o, orders db !! order_id = Some o ∧ same_purchase o o'.
Proof.
  revert db. induction ops as [|op ops IH]; intros db Hissued.
  { split_and!; [done|simpl; lia|]. intros i o' _ Ho'.
    eauto using same_purchase_refl. }
  destruct (run_op_orders_step op db Hissued) as (Hissued1 & Hle1 & Hstep).
  destruct (IH _ Hissued1) as (Hissued2 & Hle2 & Hrest).
  simpl. split_and!; [done|lia|].
  intros i o' Hi Ho'.
  destruct (Hrest i o' ltac:(lia) Ho') as (o1 & Ho1 & Hsame1).
  destruct (Hstep i o1 Hi Ho1) as (o & Ho & Hsame).
  eauto using same_purchase_trans.
Qed.

(** X17: the requests of the order engine ([add_to_cart],
    [remove_from_cart], [update_cart_item], [checkout], [cancel_order],
    [admin_order_detail], [admin_order_delete]) leave what was bought as it
    was: after any sequence of them an order that is still stored has the
    buyer, the lines with their prices, the total and the delivery and
    payment data it had; only its status and the fields of the back office
    change.  (The sequence of order identifiers is ahead of the stored
    orders, as in any database.  The deletion of a product is not one of
    these requests: it takes lines out of stored orders, see
    [admin_product_delete].) *)
Theorem engine_keeps_purchase db ops order_id o o' :
  order_ids_issued db →
  orders db !! order_id = Some o →
  orders (run_ops ops db) !! order_id = Some o' →
  same_purchase o o'.
Proof.
  intros Hissued Ho Ho'.
  destruct (run_ops_orders_step ops db Hissued) as (_ & _ & Hkept).
  destruct (Hkept order_id o') as (o0 & Ho0 & Hsame); [|done|].
  - apply Hissued. eauto.
  - rewrite Ho in Ho0. by injection Ho0 as <-.
Qed.


Lemma shop_order_ids : order_ids_issued shop.
Proof.
  intros order_id [o Ho]. simpl in *.
  apply lookup_insert_Some in Ho as [[<- _]|[_ Ho]]; [lia|].
  apply lookup_singleton_Some in Ho as [<- _]. lia.
Qed.

Lemma engine_keeps_purchase_witness :
  ∃ o',
    orders (run_ops [AdminOrderDetail 2 8 POST to_cancelled; AddToCart 1 10] shop)
      !! 8 = Some o'
    ∧ Order.status o' = "cancelled"
    ∧ same_purchase order8 o'.
Proof.
  eexists. split; [vm_compute; reflexivity|]. split; [reflexivity|].
  apply (engine_keeps_purchase shop
           [AdminOrderDetail 2 8 POST to_cancelled; AddToCart 1 10] 8);
    [apply shop_order_ids|reflexivity|vm_compute; reflexivity].
Defined.


(** ** Lines of carts over time *)

Lemma Forall_save_line (P : CartItem.t → Prop) (ci' : CartItem.t) l :
  Forall P l → P ci' →
  Forall P (map (λ x, if CartItem.id x =? CartItem.id ci' then ci' else x) l).
Proof.
  intros Hl Hci. induction Hl as [|x l Hx _ IH]; simpl; [constructor|].
  constructor; [|done]. by destruct (CartItem.id x =? CartItem.id ci').
Qed.

Lemma Forall_delete_line (P Q : CartItem.t → Prop) `{∀ x, Decision (Q x)} l :
  Forall P l → Forall P (filter Q l).
Proof.
  intros Hl. rewrite Forall_forall in Hl |- *.
  intros x [_ Hx]%list_elem_of_filter. by apply Hl.
Qed.

Lemma carts_all_insert P cs user items :
  carts_all P cs → Forall P items → carts_all P (<[user := items]> cs).
Proof.
  intros Hcs Hitems u l. rewrite lookup_insert.
  case_decide; [by intros [= <-]|apply Hcs].
Qed.

Lemma carts_all_alter P cs user f :
  carts_all P cs →
  (∀ items, cs !! user = Some items → Forall P (f items)) →
  carts_all P (alter f user cs).
Proof.
  intros Hcs Hf u l. rewrite lookup_alter. case_decide; [|apply Hcs].
  subst. destruct (cs !! u) as [items|] eqn:E; [|done].
  intros [= <-]. by apply Hf.
Qed.

Lemma carts_all_default P cs user :
  carts_all P cs → Forall P (default [] (cs !! user)).
Proof.
  intros Hcs. destruct (cs !! user) as [l|] eqn:E; [by eapply Hcs|constructor].
Qed.

(** One request: if every line of every cart satisfied [P], every line
    still does, provided [P] holds of the lines the views write: a new line
    of quantity 1 for a stored product, and a line of the cart with its
    quantity raised by one or set to a posted quantity above zero. *)
Lemma run_op_carts_all (P : CartItem.t → Prop) op db :
  (∀ id product_id p,
     products db !! product_id = Some p → P (CartItem.mk id product_id 1)) →
  (∀ ci q, P ci → q = CartItem.quantity ci + 1 ∨ 0 < q →
     P (CartItem.with_quantity q ci)) →
  carts_all P (carts db) →
  carts_all P (carts (run_op op db).2).
Proof.
  intros Hnew Hset Hcs.
  destruct op; simpl.
  - unfold add_to_cart. run_m.
    destruct (users db !! user); [|done].
    destruct (products db !! product_id) as [p|] eqn:Hp; [|done].
    destruct (decide (Product.stock p ≤ 0)); [done|].
    pose proof (carts_all_default P _ user Hcs) as Hl.
    destruct (carts db !! user) as [l|] eqn:Hcart; db_fields.
    + rewrite Hcart. cbn [from_option id] in *.
      destruct (find _ l) as [ci|] eqn:Hfind; cbn [negb CartItem.quantity].
      * destruct (decide (CartItem.quantity ci + 1 > Product.stock p)); [done|].
        db_fields. apply carts_all_alter; [done|]. intros l' Hl'.
        simplify_eq. apply Forall_save_line; [done|].
        rewrite Forall_forall in Hl.
        pose proof (Hl ci (find_elem_of _ _ _ Hfind)) as Hci.
        apply Hset; [done|by left].
      * destruct (decide (1 > Product.stock p)); [lia|].
        db_fields. apply carts_all_insert; [done|].
        apply Forall_app. split; [done|]. repeat constructor. by eapply Hnew.
    + rewrite lookup_insert_eq. cbn [from_option id find negb CartItem.quantity].
      destruct (decide (1 > Product.stock p)); [lia|].
      db_fields. apply carts_all_insert; [by apply carts_all_insert|].
      repeat constructor. by eapply Hnew.
  - unfold remove_from_cart. run_m.
    destruct (users db !! user); [|done].
    destruct (find _ _) as [ci|]; [|done].
    db_fields. apply carts_all_alter; [done|]. intros l Hl.
    apply Forall_delete_line. by eapply Hcs.
  - unfold update_cart_item. run_m.
    destruct (users db !! user); [|done].
    destruct (find _ _) as [ci|] eqn:Hfind; [|done].
    destruct (products db !! CartItem.product ci) as [p|]; [|done].
    destruct (decide (default 1 posted > Product.stock p)); [done|].
    destruct (decide (default 1 posted > 0)); db_fields.
    + apply carts_all_alter; [done|]. intros l Hl.
      rewrite Hl in Hfind. cbn [from_option id] in Hfind.
      pose proof (Hcs _ _ Hl) as Hall.
      apply (Forall_save_line P (CartItem.with_quantity (default 1 posted) ci));
        [done|].
      apply Hset; [|right; lia]. rewrite Forall_forall in Hall.
      apply Hall. by eapply find_elem_of.
    + apply carts_all_alter; [done|]. intros l Hl.
      apply Forall_delete_line. by eapply Hcs.
  - destruct (checkout_cases db user method post)
      as [->|(u & items & -> & Hu & Hcart & Hne & Hall)]; [done|].
    rewrite (checkout_run db user post u items) by done. db_fields.
    apply carts_all_insert; [done|constructor].
  - by destruct (cancel_order_frame db user order_id) as [_ -> _ _ _].
  - by destruct (admin_order_detail_frame db user order_id method post)
      as [_ -> _ _ _].
  - by destruct (admin_order_delete_frame db user order_id method)
      as [_ -> _ _ _].
Qed.

(** X19: no cart ever holds a line for zero or fewer units: from a database
    in which every cart line asks for at least one unit, this is so after
    every sequence of requests ([update_cart_item] deletes the line rather
    than store a quantity below 1). *)
Theorem cart_lines_stay_positive db ops :
  carts_positive db → carts_positive (run_ops ops db).
Proof.
  revert db. induction ops as [|op ops IH]; intros db Hdb; [done|].
  simpl. apply IH.
  apply (run_op_carts_all (λ ci, 1 ≤ CartItem.quantity ci)); [| |exact Hdb].
  - intros. simpl. lia.
  - intros ci q Hci [->|Hq]; simpl; lia.
Qed.

Lemma shop_carts_positive : carts_positive shop.
Proof.
  intros user items Hcart. simpl in Hcart.
  apply lookup_singleton_Some in Hcart as [<- <-].
  repeat constructor; simpl; lia.
Qed.

Lemma cart_lines_stay_positive_witness :
  carts_positive
    (run_ops [AddToCart 1 10; UpdateCartItem 1 1 (Some 0); AddToCart 1 10] shop)
  ∧ carts (run_ops [AddToCart 1 10; UpdateCartItem 1 1 (Some 0); AddToCart 1 10]
             shop) !! 1
    = Some [CartItem.mk 2 10 1].
Proof.
  split; [|vm_compute; reflexivity].
  apply cart_lines_stay_positive, shop_carts_positive.
Defined.

(** ** Foreign keys *)

(** No request adds or removes a product. *)
Lemma run_op_catalog op db pid :
  is_Some (products (run_op op db).2 !! pid) ↔ is_Some (products db !! pid).
Proof.
  destruct op; simpl.
  - by destruct (add_to_cart_frame db user product_id) as [_ -> _ _].
  - by destruct (remove_from_cart_frame db user item_id) as [_ -> _ _].
  - by destruct (update_cart_item_frame db user item_id posted) as [_ -> _ _].
  - destruct (checkout_cases db user method post)
      as [->|(u & items & -> & Hu & Hcart & Hne & Hall)]; [done|].
    rewrite (checkout_run db user post u items) by done. db_fields.
    rewrite lookup_stock_after. by rewrite fmap_is_Some.
  - by destruct (cancel_order_frame db user order_id) as [_ _ _ _ ->].
  - by destruct (admin_order_detail_frame db user order_id method post)
      as [_ _ _ _ ->].
  - by destruct (admin_order_delete_frame db user order_id method)
      as [_ _ _ _ ->].
Qed.

Lemma check_cart_stock_no_missing items db :
  Forall (λ i, is_Some (products db !! CartItem.product i)) items →
  (check_cart_stock items db).1 ≠ Err DoesNotExist.
Proof.
  unfold check_cart_stock. induction 1 as [|item rest [p Hp] _ IH]; [done|].
  rewrite for_each_cons. run_m. rewrite Hp.
  destruct (decide (CartItem.quantity item > Product.stock p)); [done|].
  exact IH.
Qed.

Lemma take_from_stock_no_missing items db :
  Forall (λ i, is_Some (products db !! OrderItem.product i)) items →
  (take_from_stock items db).1 ≠ Err DoesNotExist.
Proof.
  unfold take_from_stock. revert db.
  induction items as [|item rest IH]; intros db Hfk; [done|].
  apply Forall_cons in Hfk as [[p Hp] Hrest].
  rewrite for_each_cons. run_m. rewrite Hp.
  destruct (decide (OrderItem.quantity item > Product.stock p)); [done|].
  apply IH. eapply Forall_impl; [exact Hrest|]. simpl. intros i [q Hq].
  destruct (decide (OrderItem.product item = OrderItem.product i)) as [->|Hne].
  - rewrite lookup_insert_eq. eauto.
  - rewrite lookup_insert_ne by done. eauto.
Qed.

(** With the foreign keys in order, no request stops at a missing row. *)
Lemma run_op_no_missing op db :
  references_ok db → (run_op op db).1 ≠ Err DoesNotExist.
Proof.
  intros [Hcarts Horders]. destruct op; simpl.
  - unfold add_to_cart. run_m.
    destruct (users db !! user); [|done].
    destruct (products db !! product_id) as [p|]; [|done].
    destruct (decide (Product.stock p ≤ 0)); [done|].
    destruct (carts db !! user) as [l|]; db_fields;
      destruct (find _ _) as [ci|]; cbn [negb]; repeat case_decide; done.
  - unfold remove_from_cart. run_m.
    destruct (users db !! user); [|done].
    by destruct (find _ _) as [ci|].
  - unfold update_cart_item. run_m.
    destruct (users db !! user); [|done].
    destruct (carts db !! user) as [l|] eqn:Hcart; cbn [from_option id];
      [|done].
    destruct (find _ l) as [ci|] eqn:Hfind; [|done].
    pose proof (Hcarts _ _ Hcart) as Hl. rewrite Forall_forall in Hl.
    destruct (Hl ci (find_elem_of _ _ _ Hfind)) as [p ->].
    repeat case_decide; done.
  - destruct (users db !! user) as [u|] eqn:Hu; last first.
    { unfold checkout. run_m. by rewrite Hu. }
    destruct (carts db !! user) as [items|] eqn:Hcart; last first.
    { unfold checkout. run_m. by rewrite Hu, Hcart. }
    destruct (decide (items = [])) as [->|Hne].
    { unfold checkout. run_m. rewrite Hu. by settle Hcart. }
    pose proof (check_cart_stock_no_missing items db (Hcarts _ _ Hcart)) as Hno.
    destruct (check_cart_stock items db) as [[[]|e] db1] eqn:Hcheck.
    + destruct method.
      * unfold checkout. run_m. rewrite Hu. settle Hcart.
        destruct (decide (items = [])); [done|]. by rewrite Hcheck.
      * rewrite (checkout_run db user post u items); [done..|].
        by eapply check_cart_stock_passed.
    + unfold checkout. run_m. rewrite Hu. settle Hcart.
      destruct (decide (items = [])); [done|]. rewrite Hcheck.
      simpl in *. intros [= ->]. by apply Hno.
  - unfold cancel_order. run_m.
    destruct (users db !! user); [|done].
    destruct (orders db !! order_id) as [o|] eqn:Ho; [|done].
    destruct (decide (Order.user o = user)); [|done].
    destruct (decide (Order.status o = "new")); [|done].
    by rewrite return_to_stock_run by by eapply Horders.
  - unfold admin_order_detail. run_m.
    destruct (users db !! user) as [u|]; [|done].
    destruct (is_admin u); [|done].
    destruct (orders db !! order_id) as [o|] eqn:Ho; [|done].
    destruct method; [done|].
    destruct (truthy (adm_status post)) as [new_status|]; [|done].
    destruct (decide (new_status ≠ Order.status o)); [|done].
    destruct (decide (new_status = "cancelled" ∧ Order.status o ≠ "cancelled")).
    { by rewrite return_to_stock_run by by eapply Horders. }
    destruct (decide (Order.status o = "cancelled" ∧ new_status ≠ "cancelled"));
      [|done].
    pose proof (take_from_stock_no_missing (Order.items o) db (Horders _ _ Ho))
      as Hno.
    destruct (take_from_stock (Order.items o) db) as [[[]|e] db1]; [done|].
    simpl in *. intros [= ->]. by apply Hno.
  - unfold admin_order_delete. run_m.
    destruct (users db !! user) as [u|]; [|done].
    destruct (is_admin u); [|done].
    destruct (orders db !! order_id) as [o|] eqn:Ho; [|done].
    destruct method; [done|].
    destruct (decide (Order.status o ≠ "cancelled")); [|done].
    by rewrite return_to_stock_run by by eapply Horders.
Qed.

(** Every request keeps the foreign keys in order. *)
Lemma run_op_references op db :
  references_ok db → references_ok (run_op op db).2.
Proof.
  intros Hdb. pose proof Hdb as [Hcarts Horders]. split.
  - intros user items Hcart.
    eapply Forall_impl.
    + eapply (run_op_carts_all
                (λ ci, is_Some (products db !! CartItem.product ci)) op db);
        [by eauto|done|exact Hcarts|exact Hcart].
    + intros ci Hci. by apply run_op_catalog.
  - assert (∀ os', lines_kept (orders db) os' →
              ∀ order_id o, os' !! order_id = Some o →
              Forall (λ i, is_Some (products (run_op op db).2
                                      !! OrderItem.product i)) (Order.items o))
      as Hkept.
    { intros os' Hos' i o' Ho'. destruct (Hos' _ _ Ho') as (o & Ho & ->).
      eapply Forall_impl; [by eapply Horders|].
      intros x Hx. by apply run_op_catalog. }
    destruct op; simpl in *.
    + apply Hkept. rewrite add_to_cart_orders. apply lines_kept_refl.
    + apply Hkept. rewrite remove_from_cart_orders. apply lines_kept_refl.
    + apply Hkept. rewrite update_cart_item_orders. apply lines_kept_refl.
    + destruct (checkout_cases db user method post)
        as [Hsame|(u & items & -> & Hu & Hcart & Hne & Hall)].
      { apply Hkept. rewrite Hsame. apply lines_kept_refl. }
      rewrite (checkout_run db user post u items) by done. db_fields.
      intros i o. rewrite lookup_insert. case_decide.
      * intros [= <-]. cbn [Order.items Order.with_items].
        apply Forall_fmap. eapply Forall_impl; [exact Hall|].
        intros x (p & Hp & _). simpl. rewrite lookup_stock_after, Hp. eauto.
      * intros Ho. eapply Forall_impl; [by eapply Horders|].
        intros x [p Hp]. simpl. rewrite lookup_stock_after, Hp. eauto.
    + apply Hkept, cancel_order_lines.
    + apply Hkept, admin_order_detail_lines.
    + apply Hkept, admin_order_delete_lines.
Qed.

(** X20: with the foreign keys of the cart and order lines in order, they
    stay in order after every sequence of requests, and no request ever
    stops at a missing product: the answer is never [DoesNotExist]. *)
Theorem no_request_meets_a_missing_product db ops op :
  references_ok db →
  references_ok (run_ops ops db)
  ∧ (run_op op (run_ops ops db)).1 ≠ Err DoesNotExist.
Proof.
  intros Hdb.
  assert (references_ok (run_ops ops db)) as Hafter.
  { revert db Hdb. induction ops as [|op' ops IH]; intros db Hdb; [done|].
    simpl. by apply IH, run_op_references. }
  split; [done|]. by apply run_op_no_missing.
Qed.

Lemma shop_references : references_ok shop.
Proof.
  split.
  - intros user items Hcart. simpl in Hcart.
    apply lookup_singleton_Some in Hcart as [<- <-].
    repeat constructor. by exists fabric.
  - intros order_id o Ho. simpl in Ho.
    apply lookup_insert_Some in Ho as [[<- <-]|[_ Ho]].
    + repeat constructor; [by exists paper|by exists vinyl].
    + apply lookup_singleton_Some in Ho as [<- <-].
      repeat constructor; [by exists paper|by exists vinyl].
Qed.

Lemma no_request_meets_a_missing_product_witness :
  references_ok (run_ops day shop)
  ∧ (run_op (AdminOrderDetail 2 7 POST to_new) (run_ops day shop)).1
    ≠ Err DoesNotExist.
Proof. apply no_request_meets_a_missing_product, shop_references. Defined.

Lemma shop_consistent : consistent shop.
Proof. split; [apply shop_schema|apply shop_stocks]. Qed.

Lemma run_ops_distinct_lines_witness :
  ∃ o, orders (run_ops day shop) !! 9 = Some o
       ∧ Order.items o = [OrderItem.mk 12 3 4000; OrderItem.mk 10 1 1000]
       ∧ distinct_lines o.
Proof.
  eexists. split; [vm_compute; reflexivity|]. split; [reflexivity|].
  apply (run_ops_distinct_lines day shop shop_consistent) with (order_id := 9);
    [|vm_compute; reflexivity].
  intros order_id o Ho. simpl in Ho.
  apply lookup_insert_Some in Ho as [[<- <-]|[_ Ho]].
  - refine (bool_decide_unpack _ _). vm_compute. exact I.
  - apply lookup_singleton_Some in Ho as [<- <-].
    refine (bool_decide_unpack _ _). vm_compute. exact I.
Defined.

(** X22: the engine never breaks the constraints of its schema: from a
    consistent database, after every sequence of requests no cart has two
    lines with the same primary key or for the same product, every line's
    key was issued by the sequence, and no quantity of a cart or order line
    is negative. *)
Theorem engine_keeps_schema db ops :
  schema db → stocks_nonneg db → schema (run_ops ops db).
Proof.
  intros Hschema Hstock.
  assert (consistent (run_ops ops db)) as [Hafter _]; [|done].
  apply run_ops_keeps. by split.
Qed.

Lemma engine_keeps_schema_witness : schema (run_ops day shop).
Proof. apply engine_keeps_schema; [apply shop_schema|apply shop_stocks]. Defined.

(** ** The address on an order *)

Lemma append_not_empty (s t : string) : s ≠ EmptyString → s +:+ t ≠ EmptyString.
Proof. by destruct s. Qed.

Lemma join_not_empty sep p rest :
  p ≠ EmptyString → User.join sep (p :: rest) ≠ EmptyString.
Proof. intros Hp. destruct rest; [done|]. simpl. by apply append_not_empty. Qed.

(** [User.get_full_address] never answers the empty string: it is the
    placeholder when all four parts are empty, and starts with the first
    part that is not. *)
Lemma get_full_address_not_empty self :
  User.get_full_address self ≠ EmptyString.
Proof.
  unfold User.get_full_address, User.part.
  destruct (decide (User.postal_code self = EmptyString)),
    (decide (User.country self = EmptyString)),
    (decide (User.city self = EmptyString)),
    (decide (User.address self = EmptyString));
    cbn [app]; first [done | by apply join_not_empty].
Qed.

(** A [POST] to [checkout] that is answered [Ok] passed every check. *)
Lemma checkout_accepted db user post response db' :
  checkout user POST post db = (Ok response, db') →
  ∃ u items,
    users db !! user = Some u
    ∧ carts db !! user = Some items
    ∧ items ≠ []
    ∧ Forall (in_stock (products db)) items.
Proof.
  intros Hrun.
  destruct (users db !! user) as [u|] eqn:Hu; last first.
  { revert Hrun. unfold checkout. run_m. by rewrite Hu. }
  destruct (carts db !! user) as [items|] eqn:Hcart; last first.
  { revert Hrun. unfold checkout. run_m. by rewrite Hu, Hcart. }
  destruct (decide (items = [])) as [->|Hne].
  { revert Hrun. unfold checkout. run_m. rewrite Hu. by settle Hcart. }
  exists u, items. split_and!; try done.
  revert Hrun. unfold checkout. run_m. rewrite Hu. settle Hcart.
  destruct (decide (items = [])); [done|].
  destruct (check_cart_stock items db) as [[[]|e] db1] eqn:Hcheck; [|done].
  intros _. by eapply check_cart_stock_passed.
Qed.

(** X23: every order that [checkout] creates has a shipping address that is
    not empty, whatever the form held: the parts of the posted address that
    are not empty, joined, or the placeholder of [User.get_full_address]
    when all are empty or absent. *)
Theorem checkout_shipping_address db user post response db' :
  checkout user POST post db = (Ok response, db') →
  ∃ order_id o u,
    response = redirect "order_detail" (Some order_id)
    ∧ users db !! user = Some u
    ∧ orders db' !! order_id = Some o
    ∧ Order.shipping_address o
      = User.get_full_address (posted_profile u post)
    ∧ Order.shipping_address o ≠ EmptyString.
Proof.
  intros Hrun.
  destruct (checkout_accepted _ _ _ _ _ Hrun)
    as (u & items & Hu & Hcart & Hne & Hall).
  rewrite (checkout_run db user post u items) in Hrun by done.
  injection Hrun as <- <-. db_fields.
  eexists _, _, u. split_and!; [done|done|by rewrite lookup_insert_eq|done|].
  apply get_full_address_not_empty.
Qed.

Lemma checkout_shipping_address_witness :
  ∃ order_id o u,
    redirect "order_detail" (Some 9) = redirect "order_detail" (Some order_id)
    ∧ users shop_small_cart !! 1 = Some u
    ∧ orders
        (checkout 1 POST
           (Build_CheckoutPost None None None None None (Some "Omsk") None
              (Some "Mira 5") None None)
           shop_small_cart).2 !! order_id = Some o
    ∧ Order.shipping_address o
      = User.get_full_address
          (posted_profile u
             (Build_CheckoutPost None None None None None (Some "Omsk") None
                (Some "Mira 5") None None))
    ∧ Order.shipping_address o ≠ EmptyString.
Proof.
  apply (checkout_shipping_address shop_small_cart 1
           (Build_CheckoutPost None None None None None (Some "Omsk") None
              (Some "Mira 5") None None)).
  vm_compute. reflexivity.
Defined.

(** ** Recomputing the total of an order *)

(** X24: [Order.update_total_price] on an order that [checkout] created
    stores the sum of the lines alone: for an order placed with
    [delivery_method = delivery] the new total is lower than the one
    [checkout] stored by exactly the delivery fee, for any other order it is
    the same. *)
Theorem update_total_price_drops_delivery_fee db user post response db1 :
  checkout user POST post db = (Ok response, db1) →
  ∃ order_id o db2 o2,
    response = redirect "order_detail" (Some order_id)
    ∧ orders db1 !! order_id = Some o
    ∧ update_total_price order_id o db1 = (Ok tt, db2)
    ∧ orders db2 !! order_id = Some o2
    ∧ Order.total_price o2 = order_value (Order.items o)
    ∧ Order.total_price o2
      = Order.total_price o
        - (if decide (Order.delivery_method o = "delivery")
           then delivery_fee else 0)
    ∧ products db2 = products db1.
Proof.
  intros Hrun.
  destruct (checkout_accepted _ _ _ _ _ Hrun)
    as (u & items & Hu & Hcart & Hne & Hall).
  rewrite (checkout_run db user post u items) in Hrun by done.
  injection Hrun as <- <-.
  eexists _, _, _, _. split; [done|]. db_fields.
  split; [by rewrite lookup_insert_eq|].
  split.
  { unfold update_total_price.
    erewrite bind_ok by done. db_fields. rewrite lookup_insert_eq.
    cbn [fmap option_fmap option_map from_option id Order.items Order.with_items].
    eapply save_order_run; db_fields; [by rewrite lookup_insert_eq|done]. }
  db_fields. split; [by rewrite lookup_insert_eq|].
  cbn [Order.total_price order_with_total_price Order.items Order.with_items
       new_order Order.delivery_method].
  split; [done|]. split; [|done].
  rewrite order_value_lines, <- delivery_charged. lia.
Qed.

Lemma update_total_price_drops_delivery_fee_witness :
  ∃ order_id o db2 o2,
    redirect "order_detail" (Some 9) = redirect "order_detail" (Some order_id)
    ∧ orders
        (checkout 1 POST
           (Build_CheckoutPost None None None None None None None None
              (Some "delivery") None)
           shop_small_cart).2 !! order_id = Some o
    ∧ update_total_price order_id o
        (checkout 1 POST
           (Build_CheckoutPost None None None None None None None None
              (Some "delivery") None)
           shop_small_cart).2 = (Ok tt, db2)
    ∧ orders db2 !! order_id = Some o2
    ∧ Order.total_price o2 = order_value (Order.items o)
    ∧ Order.total_price o2
      = Order.total_price o
        - (if decide (Order.delivery_method o = "delivery")
           then delivery_fee else 0)
    ∧ products db2
      = products
          (checkout 1 POST
             (Build_CheckoutPost None None None None None None None None
                (Some "delivery") None)
             shop_small_cart).2.
Proof.
  apply (update_total_price_drops_delivery_fee shop_small_cart 1
           (Build_CheckoutPost None None None None None None None None
              (Some "delivery") None)).
  vm_compute. reflexivity.
Defined.

(** ** Deleting a product *)

(** X25: a [POST] of the administrator to [admin_product_delete] for a
    stored product removes the product and, with it, every cart line and
    every order line that points to it.  The other products, the other lines
    (in their order) and every other field of the orders, the stored total
    included, stay as they are; foreign keys that were in order are still in
    order. *)
Theorem admin_product_delete_cascades db admin a product_id p :
  users db !! admin = Some a →
  is_admin a = true →
  products db !! product_id = Some p →
  ∃ db',
    admin_product_delete admin product_id POST db
    = (Ok (redirect "admin_product_list" None), db')
    ∧ products db' = delete product_id (products db)
    ∧ (∀ user,
         carts db' !! user
         = filter (λ ci, CartItem.product ci ≠ product_id) <$> carts db !! user)
    ∧ (∀ order_id o', orders db' !! order_id = Some o' →
         ∃ o, orders db !! order_id = Some o
              ∧ Order.items o'
                = filter (λ oi, OrderItem.product oi ≠ product_id) (Order.items o)
              ∧ Order.total_price o' = Order.total_price o
              ∧ Order.status o' = Order.status o
              ∧ Order.user o' = Order.user o)
    ∧ (∀ order_id, is_Some (orders db' !! order_id) ↔ is_Some (orders db !! order_id))
    ∧ (references_ok db → references_ok db').
Proof.
  intros Ha Hadm Hp. eexists. split.
  { unfold admin_product_delete.
    erewrite bind_ok by (run_m; by rewrite Ha, Hadm).
    erewrite bind_ok by (run_m; by rewrite Hp).
    unfold delete_product. by erewrite bind_ok by done. }
  db_fields. split_and!.
  - done.
  - intros user. by rewrite lookup_fmap.
  - intros order_id o'. rewrite lookup_fmap.
    destruct (orders db !! order_id) as [o|]; [|done].
    intros [= <-]. by exists o.
  - intros order_id. rewrite lookup_fmap. by rewrite fmap_is_Some.
  - intros [Hcarts Horders]. split; db_fields.
    + intros user items. rewrite lookup_fmap.
      destruct (carts db !! user) as [l|] eqn:Hl; [|done].
      intros [= <-]. specialize (Hcarts _ _ Hl).
      rewrite Forall_forall in Hcarts |- *.
      intros x [Hne Hx]%list_elem_of_filter.
      rewrite lookup_delete_ne by done. by apply Hcarts.
    + intros order_id o'. rewrite lookup_fmap.
      destruct (orders db !! order_id) as [o|] eqn:Ho; [|done].
      intros [= <-]. specialize (Horders _ _ Ho).
      cbn [Order.items Order.with_items].
      rewrite Forall_forall in Horders |- *.
      intros x [Hne Hx]%list_elem_of_filter.
      rewrite lookup_delete_ne by done. by apply Horders.
Qed.

Lemma admin_product_delete_cascades_witness :
  ∃ db',
    admin_product_delete 2 11 POST shop
    = (Ok (redirect "admin_product_list" None), db')
    ∧ products db' !! 11 = None
    ∧ Order.items <$> orders db' !! 7 = Some [OrderItem.mk 10 1 1000]
    ∧ Order.total_price <$> orders db' !! 7 = Some 13500
    ∧ references_ok db'.
Proof.
  destruct (admin_product_delete_cascades shop 2 manager 11 vinyl
              eq_refl eq_refl eq_refl)
    as (db' & Hrun & Hps & Hcs & Hos & Hdom & Hrefs).
  exists db'. split; [done|].
  injection Hrun as <-.
  split_and!; [reflexivity|reflexivity|reflexivity|].
  apply Hrefs, shop_references.
Defined.

(** ** The profile *)

(** X26: a [POST] to [update_profile] by a stored user always saves the
    posted profile and answers with the success message.  The check for an
    email that another user already has compares the posted email with
    itself (both sides read the one user object the form was copied onto),
    so it is never reached: the email is saved also when another user has
    it. *)
Theorem update_profile_always_saves db user post u :
  users db !! user = Some u →
  update_profile user POST post db
  = (Ok ProfileUpdated, set_users (insert user (profile_from_form u post)) db).
Proof.
  intros Hu. unfold update_profile.
  erewrite bind_ok by (unfold login_required; run_m; by rewrite Hu).
  cbv zeta.
  destruct (decide (User.email (profile_from_form u post)
                    ≠ User.email (profile_from_form u post))); [done|].
  by erewrite bind_ok by done.
Qed.

Lemma update_profile_always_saves_witness :
  email_in_use "boris@example.org" 1 (users shop_two_customers) = true
  ∧ update_profile 1 POST boris_email shop_two_customers
    = (Ok ProfileUpdated,
       set_users (insert 1 (profile_from_form customer boris_email))
         shop_two_customers)
  ∧ User.email (profile_from_form customer boris_email) = "boris@example.org".
Proof.
  split; [vm_compute; reflexivity|]. split; [|reflexivity].
  apply (update_profile_always_saves shop_two_customers 1 boris_email customer).
  reflexivity.
Defined.

(** ** The counter of the cart in the page header *)

(** X27: [cart_items_count] counts lines, not units.  A successful
    [add_to_cart] raises it by one when the product had no line in the cart
    and leaves it as it is when the product had one, while
    [Cart.total_items] goes up by one either way; after a successful
    [checkout] the counter is 0. *)
Theorem cart_items_count_counts_lines db user :
  (∀ product_id response db',
     add_to_cart user product_id db = (Ok response, db') →
     cart_items_count user db'
     = cart_items_count user db
       + (if decide (product_id ∈ CartItem.product <$> default [] (carts db !! user))
          then 0 else 1))
  ∧ (∀ post response db',
       checkout user POST post db = (Ok response, db') →
       cart_items_count user db' = 0).
Proof.
  split.
  - intros product_id response db'. unfold add_to_cart, cart_items_count. run_m.
    destruct (users db !! user) as [u|] eqn:Hu; [|done].
    destruct (products db !! product_id) as [p|]; [|done].
    destruct (decide (Product.stock p ≤ 0)); [done|].
    destruct (carts db !! user) as [l|] eqn:Hcart; db_fields.
    + rewrite Hcart. cbn [from_option id] in *.
      destruct (find _ l) as [ci|] eqn:Hfind; cbn [negb CartItem.quantity].
      * destruct (decide (CartItem.quantity ci + 1 > Product.stock p)); [done|].
        intros [= _ <-]. db_fields. rewrite Hu, lookup_alter_eq, Hcart.
        cbn [fmap option_fmap option_map]. rewrite length_map.
        destruct (decide (product_id ∈ CartItem.product <$> l)) as [|Hnot];
          [lia|].
        apply find_no_line in Hnot. congruence.
      * destruct (decide (1 > Product.stock p)); [lia|].
        intros [= _ <-]. db_fields. rewrite Hu, lookup_insert_eq.
        rewrite length_app. simpl.
        destruct (decide (product_id ∈ CartItem.product <$> l)) as [Hin|]; [|lia].
        apply list_elem_of_fmap in Hin as (x & -> & Hx).
        apply list_elem_of_In in Hx. apply (find_none _ _ Hfind) in Hx.
        apply Z.eqb_neq in Hx. done.
    + rewrite lookup_insert_eq. cbn [from_option id find negb CartItem.quantity].
      destruct (decide (1 > Product.stock p)); [lia|].
      intros [= _ <-]. db_fields. rewrite Hu, lookup_insert_eq. simpl.
      by destruct (decide (product_id ∈ [])) as [?%elem_of_nil|].
  - intros post response db' Hrun.
    destruct (checkout_accepted _ _ _ _ _ Hrun)
      as (u & items & Hu & Hcart & Hne & Hall).
    rewrite (checkout_run db user post u items) in Hrun by done.
    injection Hrun as <- <-. unfold cart_items_count. db_fields.
    by rewrite !lookup_insert_eq.
Qed.

Lemma cart_items_count_counts_lines_witness :
  cart_items_count 1 (add_to_cart 1 10 shop).2 = 2
  ∧ cart_items_count 1 (add_to_cart 1 12 shop_small_cart).2 = 1
  ∧ cart_items_count 1
      (checkout 1 POST
         (Build_CheckoutPost None None None None None None None None None None)
         shop_small_cart).2 = 0.
Proof.
  split_and!.
  - etrans.
    + apply (proj1 (cart_items_count_counts_lines shop 1) 10
               (redirect "cart" None)).
      vm_compute. reflexivity.
    + vm_compute. reflexivity.
  - etrans.
    + apply (proj1 (cart_items_count_counts_lines shop_small_cart 1) 12
               (redirect "cart" None)).
      vm_compute. reflexivity.
    + vm_compute. reflexivity.
  - apply (proj2 (cart_items_count_counts_lines shop_small_cart 1)
             (Build_CheckoutPost None None None None None None None None None None)
             (redirect "order_detail" (Some 9))).
    vm_compute. reflexivity.
Defined.
